(** * Bank of China exchange-rate parser: a shallow embedding

    This development embeds [boc_exchange_rate_parser.py] (class
    [ExchangeRateParser]) and proves the properties its specification
    states about the fetch / parse / retry pipeline and about the
    tab-separated output store.

    Modelling conventions.
    - A Python [str] is a [string]; a character is a code point below 256.
    - A Python [float] is an IEEE-754 binary64 value, [spec_float] with
      [prec = 53] and [emax = 1024].
    - A Python [int] is a [Z].
    - The body of an HTTP response is given by the tree [html.parser]
      builds from it; [find] and [find_all] walk that tree.
    - Effects (HTTP requests, the clock, logging, sleeping, the file
      system) are threaded through an explicit [world]; exceptions are
      the [Raise] outcome of a computation. *)

From Stdlib Require Import ZArith NArith List String Ascii Bool Lia.
From Stdlib Require Import SpecFloat.
Import ListNotations.
Local Open Scope string_scope.
Local Open Scope Z_scope.

(** ** Python strings *)

Module PyStr.

(** [str.isspace] on a single character (code points below 256). *)
Definition isspace (c : ascii) : bool :=
  let n := N_of_ascii c in
  ((9 <=? n) && (n <=? 13) || (28 <=? n) && (n <=? 32)
   || (n =? 133) || (n =? 160))%N.

Fixpoint lstrip (s : string) : string :=
  match s with
  | EmptyString => EmptyString
  | String c s' => if isspace c then lstrip s' else s
  end.

Fixpoint rstrip (s : string) : string :=
  match s with
  | EmptyString => EmptyString
  | String c s' =>
      match rstrip s' with
      | EmptyString => if isspace c then EmptyString else String c EmptyString
      | t => String c t
      end
  end.

(** [s.strip()] *)
Definition strip (s : string) : string := rstrip (lstrip s).

(** [sep.join(parts)] *)
Fixpoint join (sep : string) (parts : list string) : string :=
  match parts with
  | [] => EmptyString
  | [p] => p
  | p :: ps => p ++ sep ++ join sep ps
  end.

Definition is_digit (c : ascii) : bool :=
  let n := N_of_ascii c in ((48 <=? n) && (n <=? 57))%N.

Definition digit_val (c : ascii) : N := (N_of_ascii c - 48)%N.

Definition digit_char (d : N) : ascii := ascii_of_N (48 + d mod 10)%N.

(** ASCII lower-casing, as used by the case-insensitive keywords of
    [float]. *)
Definition lower (c : ascii) : ascii :=
  let n := N_of_ascii c in
  if ((65 <=? n) && (n <=? 90))%N then ascii_of_N (n + 32)%N else c.

Fixpoint lower_str (s : string) : string :=
  match s with
  | EmptyString => EmptyString
  | String c s' => String (lower c) (lower_str s')
  end.

(** Longest prefix of decimal digits, and the rest. *)
Fixpoint span_digits (s : string) : string * string :=
  match s with
  | String c s' =>
      if is_digit c
      then let '(d, r) := span_digits s' in (String c d, r)
      else (EmptyString, s)
  | EmptyString => (EmptyString, EmptyString)
  end.

(** Value of a string of decimal digits, most significant first. *)
Fixpoint digits_val_from (acc : N) (s : string) : N :=
  match s with
  | EmptyString => acc
  | String c s' => digits_val_from (acc * 10 + digit_val c)%N s'
  end.

Definition digits_val (s : string) : N := digits_val_from 0%N s.

(** [str(n)] for a natural number: decimal digits, no leading zero.
    [fuel] bounds the number of digits. *)
Fixpoint dec_digits (fuel : nat) (n : N) (acc : string) : string :=
  match fuel with
  | O => acc
  | S fuel' =>
      let acc' := String (digit_char n) acc in
      if (n <? 10)%N then acc' else dec_digits fuel' (n / 10)%N acc'
  end.

Definition str_of_N (n : N) : string :=
  dec_digits (S (N.to_nat (N.log2 n))) n EmptyString.

(** Zero-padded decimal rendering on exactly [w] digits
    ([n] modulo [10^w]). *)
Fixpoint zero_padded (w : nat) (n : N) : string :=
  match w with
  | O => EmptyString
  | S w' => zero_padded w' (n / 10)%N ++ String (digit_char n) EmptyString
  end.

Fixpoint all_chars (P : ascii -> bool) (s : string) : bool :=
  match s with
  | EmptyString => true
  | String c s' => P c && all_chars P s'
  end.

Fixpoint contains (c : ascii) (s : string) : bool :=
  match s with
  | EmptyString => false
  | String d s' => Ascii.eqb c d || contains c s'
  end.

End PyStr.

(** ** Python floats (IEEE-754 binary64) *)

Module PyFloat.

Definition prec : Z := 53.
Definition emax : Z := 1024.

Definition float : Type := spec_float.

(** [float(n)] for an [int] in the range of exactly representable or
    roundable integers. *)
Definition of_int (z : Z) : float := binary_normalize prec emax z 0 false.

(** [x / y] for a non-zero divisor. *)
Definition div (x y : float) : float := SFdiv prec emax x y.

(** The correctly rounded binary64 value of [(-1)^neg * m * 10^k]. *)
Definition of_decimal (neg : bool) (m : N) (k : Z) : float :=
  match m with
  | N0 => S754_zero neg
  | Npos p =>
      if 0 <=? k
      then binary_round prec emax neg (p * Z.to_pos (10 ^ k)) 0
      else SFdiv prec emax (S754_finite neg p 0)
                 (S754_finite false (Z.to_pos (10 ^ (- k))) 0)
  end.

(** Underscores are digit separators: each must stand between two
    digits.  [prev] is the previous character of the input. *)
Fixpoint drop_underscores (prev : ascii) (s : string) : option string :=
  match s with
  | EmptyString => if Ascii.eqb prev "_" then None else Some EmptyString
  | String c s' =>
      if Ascii.eqb c "_"
      then if PyStr.is_digit prev then drop_underscores c s' else None
      else if Ascii.eqb prev "_" && negb (PyStr.is_digit c) then None
           else option_map (String c) (drop_underscores c s')
  end.

Definition split_sign (s : string) : bool * string :=
  match s with
  | String "-" t => (true, t)
  | String "+" t => (false, t)
  | _ => (false, s)
  end.

(** The optional exponent part; it must reach the end of the input. *)
Definition parse_exponent (s : string) : option Z :=
  match s with
  | EmptyString => Some 0
  | String c s' =>
      if Ascii.eqb (PyStr.lower c) "e"
      then let '(neg, t) := split_sign s' in
           let '(d, r) := PyStr.span_digits t in
           match d, r with
           | String _ _, EmptyString =>
               let e := Z.of_N (PyStr.digits_val d) in
               Some (if neg then - e else e)
           | _, _ => None
           end
      else None
  end.

(** [digits [. [digits]] | . digits] followed by an optional exponent. *)
Definition parse_number (neg : bool) (s : string) : option float :=
  let '(ip, r1) := PyStr.span_digits s in
  let '(fp, r2) :=
    match r1 with
    | String "." t => PyStr.span_digits t
    | _ => (EmptyString, r1)
    end in
  match ip ++ fp with
  | EmptyString => None
  | ds =>
      match parse_exponent r2 with
      | Some e =>
          Some (of_decimal neg (PyStr.digits_val ds)
                           (e - Z.of_nat (String.length fp)))
      | None => None
      end
  end.

Definition parse_inf_or_nan (neg : bool) (s : string) : option float :=
  let l := PyStr.lower_str s in
  if String.eqb l "inf" || String.eqb l "infinity"
  then Some (S754_infinity neg)
  else if String.eqb l "nan" then Some S754_nan else None.

(** Whitespace as [float] sees it: the ASCII blanks, after the
    non-ASCII spaces have been turned into blanks and every other
    non-ASCII character into a question mark. *)
Definition to_ascii (c : ascii) : ascii :=
  if (N_of_ascii c <? 128)%N then c
  else if PyStr.isspace c then " "%char else "?"%char.

Fixpoint transform (s : string) : string :=
  match s with
  | EmptyString => EmptyString
  | String c s' => String (to_ascii c) (transform s')
  end.

Definition is_blank (c : ascii) : bool :=
  let n := N_of_ascii c in ((9 <=? n) && (n <=? 13) || (n =? 32))%N.

Fixpoint lstrip_blank (s : string) : string :=
  match s with
  | EmptyString => EmptyString
  | String c s' => if is_blank c then lstrip_blank s' else s
  end.

Fixpoint rstrip_blank (s : string) : string :=
  match s with
  | EmptyString => EmptyString
  | String c s' =>
      match rstrip_blank s' with
      | EmptyString => if is_blank c then EmptyString else String c EmptyString
      | t => String c t
      end
  end.

(** [float(s)] for a [str]; [None] stands for [ValueError]. *)
Definition of_str (s : string) : option float :=
  match drop_underscores "000" (rstrip_blank (lstrip_blank (transform s))) with
  | None => None
  | Some t =>
      let '(neg, u) := split_sign t in
      match parse_number neg u with
      | Some x => Some x
      | None => parse_inf_or_nan neg u
      end
  end.

Definition is_finite (x : float) : bool :=
  match x with
  | S754_zero _ | S754_finite _ _ _ => true
  | S754_infinity _ | S754_nan => false
  end.

(** [n / d] rounded to the nearest integer, ties to even. *)
Definition div_half_even (n d : N) : N :=
  let q := (n / d)%N in
  let r := (n mod d)%N in
  if (2 * r <? d)%N then q
  else if (2 * r =? d)%N then (if N.even q then q else q + 1)%N
  else (q + 1)%N.

(** [m * 2^e * 10^4] rounded to the nearest integer, ties to even. *)
Definition scaled4 (m : positive) (e : Z) : N :=
  match e with
  | Zneg p => div_half_even (Npos m * 10000) (2 ^ Npos p)
  | _ => (Npos m * 10000 * 2 ^ Z.to_N e)%N
  end.

Definition sign_str (neg : bool) : string := if neg then "-" else EmptyString.

(** [f"{x:.4f}"] *)
Definition format_4f (x : float) : string :=
  match x with
  | S754_nan => "nan"
  | S754_infinity s => sign_str s ++ "inf"
  | S754_zero s => sign_str s ++ "0.0000"
  | S754_finite s m e =>
      let n := scaled4 m e in
      sign_str s ++ PyStr.str_of_N (n / 10000) ++ "."
        ++ PyStr.zero_padded 4 (n mod 10000)
  end.

End PyFloat.

(** ** Parsed HTML documents ([bs4]) *)

Module Soup.

#[local] Set Warnings "-register-all".

(** A page element: a text node or a tag with its attributes and its
    children in document order. *)
Inductive node : Type :=
| NavigableString (s : string)
| Tag (name : string) (attrs : list (string * string)) (contents : list node).

(** The [BeautifulSoup] object is itself a tag holding the top-level
    elements. *)
Definition BeautifulSoup (elements : list node) : node :=
  Tag "[document]" [] elements.

(** [n.descendants]: every element below [n], in document order. *)
Fixpoint descendants (n : node) : list node :=
  match n with
  | NavigableString _ => []
  | Tag _ _ cs => flat_map (fun c => c :: descendants c) cs
  end.

(** [n.text]: the text nodes below [n], concatenated. *)
Fixpoint text (n : node) : string :=
  match n with
  | NavigableString s => s
  | Tag _ _ cs => String.concat EmptyString (map text cs)
  end.

Fixpoint get_attr (k : string) (attrs : list (string * string)) : option string :=
  match attrs with
  | [] => None
  | (k', v) :: rest => if String.eqb k k' then Some v else get_attr k rest
  end.

Definition has_attrs (wanted attrs : list (string * string)) : bool :=
  forallb (fun kv =>
             match get_attr (fst kv) attrs with
             | Some v => String.eqb v (snd kv)
             | None => false
             end) wanted.

Definition is_tag (name : string) (wanted : list (string * string))
  (n : node) : bool :=
  match n with
  | NavigableString _ => false
  | Tag name' attrs _ => String.eqb name' name && has_attrs wanted attrs
  end.

(** [n.find_all(name)] *)
Definition find_all (name : string) (n : node) : list node :=
  filter (is_tag name []) (descendants n).

(** [n.find(name, attrs)]; [None] is Python's [None]. *)
Definition find (name : string) (wanted : list (string * string))
  (n : node) : option node :=
  List.find (is_tag name wanted) (descendants n).

End Soup.

(** ** Exceptions, the world and the computation monad *)

(** The exceptions the program can meet; all are subclasses of
    [Exception]. *)
Inductive exn : Type :=
| RequestException (reason : string)
| HTTPError (status : Z)
| Exception (msg : string)
| IndexError
| ValueError (arg : string)
| FileExistsError (path : string)
| IsADirectoryError (path : string)
| NotADirectoryError (path : string).

Inductive result (A : Type) : Type :=
| Ok (a : A)
| Raise (e : exn).
Arguments Ok {A} a.
Arguments Raise {A} e.

Record response : Type := mkResponse {
  status_code : Z;
  (** the tree [html.parser] builds from [response.text] *)
  document : list Soup.node
}.

(** What one [requests.get] call meets. *)
Inductive http_outcome : Type :=
| ConnectionFailed (reason : string)
| Responded (r : response).

Inductive level : Type := INFO | ERROR.

(** Log messages; the arguments of the f-strings are kept as data. *)
Inductive message : Type :=
| Text (s : string)
| AttemptFailed (number : Z) (e : exn)
| RetryingIn (seconds : Z)
| MiddleRateIs (x : PyFloat.float)
| SavedTo (path : string).

Inductive event : Type :=
| Request (url : string) (headers : list (string * string))
| Log (l : level) (m : message)
| Sleep (seconds : Z).

(** A path of the file system is absent, a directory or a regular file. *)
Inductive entry : Type :=
| Dir
| File (content : string).

(** The two paths the program touches. *)
Record filesystem : Type := mkFs {
  at_data_dir : option entry;
  at_output_file : option entry
}.

Record world : Type := mkWorld {
  (** the outcome of the n-th HTTP request *)
  http : nat -> http_outcome;
  requests_sent : nat;
  (** local wall-clock time, in seconds since the epoch *)
  clock : Z;
  fs : filesystem;
  (** everything observable the program did, oldest first *)
  trace : list event
}.

Definition M (A : Type) : Type := world -> result A * world.

Definition ret {A} (a : A) : M A := fun w => (Ok a, w).

Definition bind {A B} (c : M A) (k : A -> M B) : M B :=
  fun w =>
    match c w with
    | (Ok a, w') => k a w'
    | (Raise e, w') => (Raise e, w')
    end.

Definition raise {A} (e : exn) : M A := fun w => (Raise e, w).

(** [try: body / except Exception as e: handler e] *)
Definition try_except {A} (body : M A) (handler : exn -> M A) : M A :=
  fun w =>
    match body w with
    | (Ok a, w') => (Ok a, w')
    | (Raise e, w') => handler e w'
    end.

Definition lift {A} (r : result A) : M A := fun w => (r, w).

Declare Scope py_scope.
Delimit Scope py_scope with py.
Notation "x <- c ;; k" := (bind c (fun x => k))
  (at level 61, c at next level, right associativity) : py_scope.
Notation "c ;;; k" := (bind c (fun _ => k))
  (at level 61, right associativity) : py_scope.
Local Open Scope py_scope.

Definition emit (e : event) : M unit :=
  fun w => (Ok tt, mkWorld (http w) (requests_sent w) (clock w) (fs w)
                           (trace w ++ [e])).

Definition logging_info (m : message) : M unit := emit (Log INFO m).
Definition logging_error (m : message) : M unit := emit (Log ERROR m).

(** [time.sleep(seconds)]; a negative length is refused. *)
Definition time_sleep (seconds : Z) : M unit :=
  fun w =>
    if seconds <? 0
    then (Raise (ValueError "sleep length must be non-negative"), w)
    else (Ok tt, mkWorld (http w) (requests_sent w) (clock w + seconds)
                         (fs w) (trace w ++ [Sleep seconds])).

(** [requests.get(url, headers=headers)] *)
Definition requests_get (url : string) (headers : list (string * string))
  : M response :=
  fun w =>
    let w' := mkWorld (http w) (S (requests_sent w)) (clock w) (fs w)
                      (trace w ++ [Request url headers]) in
    match http w (requests_sent w) with
    | ConnectionFailed reason => (Raise (RequestException reason), w')
    | Responded r => (Ok r, w')
    end.

(** [response.raise_for_status()] *)
Definition raise_for_status (r : response) : M unit :=
  if (400 <=? status_code r) && (status_code r <? 600)
  then raise (HTTPError (status_code r))
  else ret tt.

(** [datetime.now()] *)
Definition datetime_now : M Z := fun w => (Ok (clock w), w).

(** [xs[i]] *)
Definition getitem {A} (xs : list A) (i : nat) : result A :=
  match nth_error xs i with
  | Some x => Ok x
  | None => Raise IndexError
  end.

(** [range(n)] *)
Definition range (n : Z) : list Z := map Z.of_nat (seq 0 (Z.to_nat n)).

(** [datetime.strftime('%Y-%m-%d %H:%M:%S')] of a time given in seconds
    since the epoch (proleptic Gregorian calendar). *)
Module Strftime.

Definition civil_from_days (days : Z) : Z * Z * Z :=
  let z := days + 719468 in
  let era := z / 146097 in
  let doe := z - era * 146097 in
  let yoe := (doe - doe / 1460 + doe / 36524 - doe / 146096) / 365 in
  let doy := doe - (365 * yoe + yoe / 4 - yoe / 100) in
  let mp := (5 * doy + 2) / 153 in
  let d := doy - (153 * mp + 2) / 5 + 1 in
  let m := if mp <? 10 then mp + 3 else mp - 9 in
  let y := yoe + era * 400 + (if m <=? 2 then 1 else 0) in
  (y, m, d).

Definition pad (w : nat) (z : Z) : string := PyStr.zero_padded w (Z.to_N z).

Definition format (t : Z) : string :=
  let '(y, m, d) := civil_from_days (t / 86400) in
  let s := t mod 86400 in
  pad 4 y ++ "-" ++ pad 2 m ++ "-" ++ pad 2 d ++ " "
    ++ pad 2 (s / 3600) ++ ":" ++ pad 2 (s / 60 mod 60) ++ ":" ++ pad 2 (s mod 60).

End Strftime.

(** ** The [csv] writer *)

Module Csv.

Definition TAB : ascii := "009"%char.
Definition LF : ascii := "010"%char.
Definition CR : ascii := "013"%char.
Definition QUOTE : ascii := "034"%char.

Definition lineterminator : string := String CR (String LF EmptyString).

(** [QUOTE_MINIMAL]: a field is quoted when it holds the delimiter, the
    quote character or a character of the line terminator. *)
Definition needs_quotes (delimiter : ascii) (field : string) : bool :=
  PyStr.contains delimiter field || PyStr.contains QUOTE field
  || PyStr.contains CR field || PyStr.contains LF field.

Fixpoint double_quotes (s : string) : string :=
  match s with
  | EmptyString => EmptyString
  | String c s' =>
      if Ascii.eqb c QUOTE
      then String QUOTE (String QUOTE (double_quotes s'))
      else String c (double_quotes s')
  end.

Definition quoted (s : string) : string :=
  String QUOTE (double_quotes s ++ String QUOTE EmptyString).

Definition write_field (delimiter : ascii) (field : string) : string :=
  if needs_quotes delimiter field then quoted field else field.

(** [writer.writerow(fields)]: the text of one row.  A row made of a
    single empty field is written as an empty quoted field. *)
Definition writerow (delimiter : ascii) (fields : list string) : string :=
  match fields with
  | [EmptyString] => quoted EmptyString ++ lineterminator
  | _ =>
      PyStr.join (String delimiter EmptyString)
                 (map (write_field delimiter) fields)
        ++ lineterminator
  end.

(** A [dict] with string keys and values, in insertion order. *)
Definition dict : Type := list (string * string).

Fixpoint get (key : string) (d : dict) : option string :=
  match d with
  | [] => None
  | (k, v) :: rest => if String.eqb key k then Some v else get key rest
  end.

(** [DictWriter._dict_to_list]: the values in the order of
    [fieldnames], a missing key giving the empty string. *)
Definition dict_to_list (fieldnames : list string) (d : dict) : list string :=
  map (fun k => match get k d with Some v => v | None => EmptyString end)
      fieldnames.

(** [DictWriter.writeheader] *)
Definition header_text (delimiter : ascii) (fieldnames : list string) : string :=
  writerow delimiter (dict_to_list fieldnames (combine fieldnames fieldnames)).

(** [DictWriter.writerow] *)
Definition row_text (delimiter : ascii) (fieldnames : list string) (d : dict)
  : string :=
  writerow delimiter (dict_to_list fieldnames d).

End Csv.

(** ** The file system operations of [save_to_csv] *)

Definition set_fs (f : filesystem) (w : world) : world :=
  mkWorld (http w) (requests_sent w) (clock w) f (trace w).

(** [os.makedirs(self.data_dir, exist_ok=True)] *)
Definition os_makedirs (path : string) : M unit :=
  fun w =>
    match at_data_dir (fs w) with
    | None => (Ok tt, set_fs (mkFs (Some Dir) (at_output_file (fs w))) w)
    | Some Dir => (Ok tt, w)
    | Some (File _) => (Raise (FileExistsError path), w)
    end.

(** [os.path.isfile(self.output_file)] *)
Definition os_path_isfile : M bool :=
  fun w =>
    match at_output_file (fs w) with
    | Some (File _) => (Ok true, w)
    | _ => (Ok false, w)
    end.

(** [open(self.output_file, 'a', newline='', encoding='utf-8')]: the
    file is created empty when it does not exist. *)
Definition open_append (path : string) : M unit :=
  fun w =>
    match at_data_dir (fs w), at_output_file (fs w) with
    | Some Dir, None =>
        (Ok tt, set_fs (mkFs (Some Dir) (Some (File EmptyString))) w)
    | Some Dir, Some (File _) => (Ok tt, w)
    | Some Dir, Some Dir => (Raise (IsADirectoryError path), w)
    | _, _ => (Raise (NotADirectoryError path), w)
    end.

(** Writing to the file opened for appending. *)
Definition file_write (s : string) : M unit :=
  fun w =>
    match at_output_file (fs w) with
    | Some (File c) =>
        (Ok tt, set_fs (mkFs (at_data_dir (fs w)) (Some (File (c ++ s)))) w)
    | _ => (Ok tt, w)
    end.

(** ** [class ExchangeRateParser] *)

Record ExchangeRateParser : Type := mkParser {
  base_url : string;
  headers : list (string * string);
  data_dir : string;
  max_retries : Z;
  retry_delay : Z;
  output_file : string
}.

(** [__init__] *)
Definition init : ExchangeRateParser := {|
  base_url := "https://www.bankofchina.com/sourcedb/whpj/enindex_1619.html";
  headers :=
    [("Accept", "text/html,application/xhtml+xml,application/xml;q=0.9,image/avif,image/webp,image/apng,*/*;q=0.8,application/signed-exchange;v=b3;q=0.7");
     ("User-Agent", "Mozilla/5.0 (Windows NT 10.0; Win64; x64) AppleWebKit/537.36 (KHTML, like Gecko) Chrome/135.0.0.0 Safari/537.36");
     ("Accept-Language", "en-US,en;q=0.9")];
  data_dir := "data";
  max_retries := 3;
  retry_delay := 5;
  output_file := "data" ++ "/exchange_rates.csv"
|}.

(** The dictionary [get_exchange_rates] returns, with its fixed keys. *)
Record ExchangeRateRecord : Type := mkRecord {
  Currency_Name : string;
  Buying_Rate : PyFloat.float;
  Cash_Buying_Rate : PyFloat.float;
  Selling_Rate : PyFloat.float;
  Cash_Selling_Rate : PyFloat.float;
  Middle_Rate : PyFloat.float;
  Pub_Time : string;
  Timestamp : string
}.

(** The argument of [float(...)]: a [str], or the [int] that [or]
    substitutes for an empty one. *)
Inductive str_or_int : Type :=
| Str (s : string)
| Int (z : Z).

(** [s or z] *)
Definition or_else (s : string) (z : Z) : str_or_int :=
  match s with
  | EmptyString => Int z
  | _ => Str s
  end.

(** [float(a)] *)
Definition float_of (a : str_or_int) : result PyFloat.float :=
  match a with
  | Int z => Ok (PyFloat.of_int z)
  | Str s =>
      match PyFloat.of_str s with
      | Some x => Ok x
      | None => Raise (ValueError s)
      end
  end.

(** [float(cells[i].text.strip() or 0) / 100] *)
Definition rate_of (cells : list Soup.node) (i : nat) : M PyFloat.float :=
  c <- lift (getitem cells i) ;;
  x <- lift (float_of (or_else (PyStr.strip (Soup.text c)) 0)) ;;
  ret (PyFloat.div x (PyFloat.of_int 100)).

(** The dictionary display of lines 49-58; its values are evaluated in
    order. *)
Definition make_record (cells : list Soup.node) : M ExchangeRateRecord :=
  buying <- rate_of cells 1 ;;
  cash_buying <- rate_of cells 2 ;;
  selling <- rate_of cells 3 ;;
  cash_selling <- rate_of cells 4 ;;
  middle <- rate_of cells 5 ;;
  pub <- lift (getitem cells 6) ;;
  now <- datetime_now ;;
  ret {| Currency_Name := "USD";
         Buying_Rate := buying;
         Cash_Buying_Rate := cash_buying;
         Selling_Rate := selling;
         Cash_Selling_Rate := cash_selling;
         Middle_Rate := middle;
         Pub_Time := PyStr.strip (Soup.text pub);
         Timestamp := Strftime.format now |}.

(** [cells and cells[0].text.strip() == 'USD']: the right operand is
    evaluated only when the list of cells is not empty. *)
Definition is_usd_row (cells : list Soup.node) : M bool :=
  match cells with
  | [] => ret false
  | _ :: _ =>
      c <- lift (getitem cells 0) ;;
      ret (String.eqb (PyStr.strip (Soup.text c)) "USD")
  end.

(** The [for row in ...] loop of lines 46-58 and the [raise] of line 60
    that follows it. *)
Fixpoint scan_rows (rows : list Soup.node) : M ExchangeRateRecord :=
  match rows with
  | [] => raise (Exception "USD rate not found in the table")
  | row :: rest =>
      let cells := Soup.find_all "td" row in
      found <- is_usd_row cells ;;
      if (found : bool) then make_record cells else scan_rows rest
  end.

Definition table_signature : list (string * string) :=
  [("width", "600"); ("cellpadding", "5"); ("cellspacing", "1")].

(** The body of the [try] block: one attempt. *)
Definition attempt_body (self : ExchangeRateParser) : M ExchangeRateRecord :=
  response <- requests_get (base_url self) (headers self) ;;
  raise_for_status response ;;;
  let soup := Soup.BeautifulSoup (document response) in
  match Soup.find "table" table_signature soup with
  | None => raise (Exception "Exchange rate table not found")
  | Some table => scan_rows (tl (Soup.find_all "tr" table))
  end.

(** The [for attempt in range(...)] loop; falling off its end returns
    [None]. *)
Fixpoint attempts (self : ExchangeRateParser) (todo : list Z)
  : M (option ExchangeRateRecord) :=
  match todo with
  | [] => ret None
  | attempt :: rest =>
      try_except
        (r <- attempt_body self ;; ret (Some r))
        (fun e =>
           logging_error (AttemptFailed (attempt + 1) e) ;;;
           if attempt <? max_retries self - 1
           then logging_info (RetryingIn (retry_delay self)) ;;;
                time_sleep (retry_delay self) ;;;
                attempts self rest
           else logging_error (Text "Max retries reached. Giving up.") ;;;
                ret None)
  end.

Definition get_exchange_rates (self : ExchangeRateParser)
  : M (option ExchangeRateRecord) :=
  attempts self (range (max_retries self)).

Definition fieldnames : list string :=
  ["Currency Name"; "Buying Rate"; "Cash Buying Rate"; "Selling Rate";
   "Cash Selling Rate"; "Middle Rate"; "Pub Time"; "Timestamp"].

(** [formatted_data] of lines 96-105 *)
Definition formatted_data (data : ExchangeRateRecord) : Csv.dict :=
  [("Currency Name", Currency_Name data);
   ("Buying Rate", PyFloat.format_4f (Buying_Rate data));
   ("Cash Buying Rate", PyFloat.format_4f (Cash_Buying_Rate data));
   ("Selling Rate", PyFloat.format_4f (Selling_Rate data));
   ("Cash Selling Rate", PyFloat.format_4f (Cash_Selling_Rate data));
   ("Middle Rate", PyFloat.format_4f (Middle_Rate data));
   ("Pub Time", Pub_Time data);
   ("Timestamp", Timestamp data)].

(** [save_to_csv]; [None] stands for a falsy argument. *)
Definition save_to_csv (self : ExchangeRateParser)
  (data : option ExchangeRateRecord) : M unit :=
  match data with
  | None => ret tt
  | Some data =>
      os_makedirs (data_dir self) ;;;
      file_exists <- os_path_isfile ;;
      open_append (output_file self) ;;;
      (if (file_exists : bool) then ret tt
       else file_write (Csv.header_text Csv.TAB fieldnames)) ;;;
      file_write (Csv.row_text Csv.TAB fieldnames (formatted_data data)) ;;;
      logging_info (SavedTo (output_file self))
  end.

Definition run (self : ExchangeRateParser) : M unit :=
  logging_info (Text "Fetching USD exchange rate from Bank of China...") ;;;
  exchange_data <- get_exchange_rates self ;;
  match exchange_data with
  | Some data =>
      logging_info (MiddleRateIs (Middle_Rate data)) ;;;
      save_to_csv self (Some data)
  | None => logging_error (Text "Failed to fetch exchange rate data")
  end.

(** [main] *)
Definition main : M unit := run init.

(** ** The specification's vocabulary

    The definitions of this section follow the words of the
    specification; the theorems below compare the program with them. *)

(** "Each parsed as a floating-point number (empty cell treated as
    zero)": the number a rate cell holds, if it holds one. *)
Definition cell_value (c : Soup.node) : option PyFloat.float :=
  match PyStr.strip (Soup.text c) with
  | EmptyString => Some (PyFloat.of_int 0)
  | t => PyFloat.of_str t
  end.

(** "Divided by 100". *)
Definition scaled (v : PyFloat.float) : PyFloat.float :=
  PyFloat.div v (PyFloat.of_int 100).

(** "Row-to-record mapping": columns 1-5 are the five rates, column 6
    the published time. *)
Definition row_to_record (code : string) (cells : list Soup.node) (now : Z)
  : option ExchangeRateRecord :=
  match cells with
  | _ :: c1 :: c2 :: c3 :: c4 :: c5 :: c6 :: _ =>
      match cell_value c1, cell_value c2, cell_value c3,
            cell_value c4, cell_value c5 with
      | Some v1, Some v2, Some v3, Some v4, Some v5 =>
          Some (mkRecord code (scaled v1) (scaled v2) (scaled v3)
                         (scaled v4) (scaled v5)
                         (PyStr.strip (Soup.text c6)) (Strftime.format now))
      | _, _, _, _, _ => None
      end
  | _ => None
  end.

(** "The first row whose first cell's trimmed text equals the requested
    currency code", the header row being skipped; a row is given by its
    cells. *)
Definition first_cell_is (code : string) (cells : list Soup.node) : bool :=
  match cells with
  | c :: _ => String.eqb (PyStr.strip (Soup.text c)) code
  | [] => false
  end.

Definition first_row_for (code : string) (rows : list Soup.node)
  : option (list Soup.node) :=
  List.find (first_cell_is code) (map (Soup.find_all "td") (tl rows)).

(** The world after the request of one attempt has been sent. *)
Definition requested (self : ExchangeRateParser) (w : world) : world :=
  mkWorld (http w) (S (requests_sent w)) (clock w) (fs w)
          (trace w ++ [Request (base_url self) (headers self)]).

(** The trace of one failed attempt, and of the pause before the next. *)
Definition failed_round (self : ExchangeRateParser) (number : Z) (e : exn)
  : list event :=
  [Request (base_url self) (headers self); Log ERROR (AttemptFailed number e)].

Definition pause (self : ExchangeRateParser) : list event :=
  [Log INFO (RetryingIn (retry_delay self)); Sleep (retry_delay self)].

Definition giving_up : event := Log ERROR (Text "Max retries reached. Giving up.").

Definition is_attempt_failure (ev : event) : bool :=
  match ev with
  | Log ERROR (AttemptFailed _ _) => true
  | _ => false
  end.

Definition is_terminal_failure (ev : event) : bool :=
  match ev with
  | Log ERROR (Text s) => String.eqb s "Max retries reached. Giving up."
  | _ => false
  end.

Definition is_sleep (ev : event) : bool :=
  match ev with
  | Sleep _ => true
  | _ => false
  end.

(** A document "lacking the target table, or lacking a row for the
    requested code". *)
Definition lacks_row (code : string) (doc : list Soup.node) : bool :=
  match Soup.find "table" table_signature (Soup.BeautifulSoup doc) with
  | None => true
  | Some table =>
      match first_row_for code (Soup.find_all "tr" table) with
      | None => true
      | Some _ => false
      end
  end.

(** Calling [save_to_csv] once for each record, in order. *)
Fixpoint save_each (self : ExchangeRateParser) (rs : list ExchangeRateRecord)
  : M unit :=
  match rs with
  | [] => ret tt
  | r :: rest => save_to_csv self (Some r) ;;; save_each self rest
  end.

(** The header row and a data row as text: the fields in the order of
    the interface, separated by tabs, ended by the line terminator. *)
Definition header_line : string :=
  PyStr.join (String Csv.TAB EmptyString) fieldnames ++ Csv.lineterminator.

Definition data_fields (r : ExchangeRateRecord) : list string :=
  [Currency_Name r;
   PyFloat.format_4f (Buying_Rate r);
   PyFloat.format_4f (Cash_Buying_Rate r);
   PyFloat.format_4f (Selling_Rate r);
   PyFloat.format_4f (Cash_Selling_Rate r);
   PyFloat.format_4f (Middle_Rate r);
   Pub_Time r;
   Timestamp r].

Definition data_line (r : ExchangeRateRecord) : string :=
  PyStr.join (String Csv.TAB EmptyString)
             (map (Csv.write_field Csv.TAB) (data_fields r))
    ++ Csv.lineterminator.

(** "A fixed-point decimal with exactly four digits after the decimal
    point": an optional minus sign, at least one digit, a point, four
    digits. *)
Definition is_fixed4 (s : string) : bool :=
  let t :=
    match s with
    | String c t => if Ascii.eqb c "-" then t else s
    | EmptyString => s
    end in
  let '(ip, r) := PyStr.span_digits t in
  match ip, r with
  | String _ _, String c fp =>
      Ascii.eqb c "." && Nat.eqb (String.length fp) 4
      && PyStr.all_chars PyStr.is_digit fp
  | _, _ => false
  end.

(** The text of a list of lines, one after the other. *)
Fixpoint lines_text (ls : list string) : string :=
  match ls with
  | [] => EmptyString
  | l :: rest => l ++ lines_text rest
  end.

(** The worlds a failed attempt leaves behind: before the next attempt,
    and after the last one. *)
Definition after_pause (self : ExchangeRateParser) (number : Z) (e : exn)
  (w : world) : world :=
  mkWorld (http w) (S (requests_sent w)) (clock w + retry_delay self) (fs w)
          (trace w ++ failed_round self number e ++ pause self).

Definition after_giving_up (self : ExchangeRateParser) (number : Z) (e : exn)
  (w : world) : world :=
  mkWorld (http w) (S (requests_sent w)) (clock w) (fs w)
          (trace w ++ failed_round self number e ++ [giving_up]).

(** The trace of a run of failed attempts, numbered from [number], each
    followed by the pause before the next attempt. *)
Fixpoint failed_rounds (self : ExchangeRateParser) (number : Z) (errors : list exn)
  : list event :=
  match errors with
  | [] => []
  | e :: es =>
      failed_round self number e ++ pause self
        ++ failed_rounds self (number + 1) es
  end.

(** The world once [run] has logged that it starts. *)
Definition started (w : world) : world :=
  snd (logging_info (Text "Fetching USD exchange rate from Bank of China...") w).

(** The five rates of a record, in column order. *)
Definition rates (r : ExchangeRateRecord) : list PyFloat.float :=
  [Buying_Rate r; Cash_Buying_Rate r; Selling_Rate r; Cash_Selling_Rate r;
   Middle_Rate r].

(** A row is fully parsed when it has at least seven cells and each of
    its five rate cells holds a number. *)
Definition has_number (c : Soup.node) : bool :=
  match cell_value c with
  | Some _ => true
  | None => false
  end.

Definition fully_parsed (cells : list Soup.node) : bool :=
  (7 <=? List.length cells)%nat && forallb has_number (firstn 5 (tl cells)).

(** An event that is a request. *)
Definition is_request (ev : event) : bool :=
  match ev with
  | Request _ _ => true
  | _ => false
  end.

(** The outcomes of a request on which an attempt fails: no response, a
    status in the 4xx or 5xx range, no table, no row for the code, or a
    row for the code that is not fully parsed. *)
Definition attempt_fails_on (o : http_outcome) : bool :=
  match o with
  | ConnectionFailed _ => true
  | Responded resp =>
      (400 <=? status_code resp) && (status_code resp <? 600)
      || match Soup.find "table" table_signature
                 (Soup.BeautifulSoup (document resp)) with
         | None => true
         | Some table =>
             match first_row_for "USD" (Soup.find_all "tr" table) with
             | None => true
             | Some cells => negb (fully_parsed cells)
             end
         end
  end.

(** A reader for the rows the writer produces: fields are separated by
    the delimiter, a field that starts with a quote runs to its closing
    quote (a doubled quote standing for one), and the row ends at the
    line terminator.  It serves to show that the writer loses nothing. *)
Module CsvReader.

Inductive state : Type := AtStart | InField | InQuotes | AfterQuote.

Definition ends_row (c : ascii) : bool :=
  Ascii.eqb Csv.CR c || Ascii.eqb Csv.LF c.

Fixpoint read (delimiter : ascii) (st : state) (cur : string)
  (done : list string) (s : string) : list string :=
  match s with
  | EmptyString => done ++ [cur]
  | String c rest =>
      match st with
      | AtStart =>
          if Ascii.eqb Csv.QUOTE c then read delimiter InQuotes cur done rest
          else if Ascii.eqb delimiter c
               then read delimiter AtStart EmptyString (done ++ [cur]) rest
               else if ends_row c then done ++ [cur]
                    else read delimiter InField (cur ++ String c EmptyString) done rest
      | InField =>
          if Ascii.eqb delimiter c
          then read delimiter AtStart EmptyString (done ++ [cur]) rest
          else if ends_row c then done ++ [cur]
               else read delimiter InField (cur ++ String c EmptyString) done rest
      | InQuotes =>
          if Ascii.eqb Csv.QUOTE c then read delimiter AfterQuote cur done rest
          else read delimiter InQuotes (cur ++ String c EmptyString) done rest
      | AfterQuote =>
          if Ascii.eqb Csv.QUOTE c
          then read delimiter InQuotes (cur ++ String Csv.QUOTE EmptyString) done rest
          else if Ascii.eqb delimiter c
               then read delimiter AtStart EmptyString (done ++ [cur]) rest
               else if ends_row c then done ++ [cur]
                    else read delimiter InField (cur ++ String c EmptyString) done rest
      end
  end.

Definition read_row (delimiter : ascii) (s : string) : list string :=
  read delimiter AtStart EmptyString [] s.

End CsvReader.

(** ** Sample pages and worlds *)

Module Sample.

Definition td (s : string) : Soup.node := Soup.Tag "td" [] [Soup.NavigableString s].
Definition th (s : string) : Soup.node := Soup.Tag "th" [] [Soup.NavigableString s].
Definition tr (cells : list Soup.node) : Soup.node := Soup.Tag "tr" [] cells.

Definition rates_table (rows : list Soup.node) : Soup.node :=
  Soup.Tag "table"
    [("cellpadding", "5"); ("cellspacing", "1"); ("width", "600")] rows.

Definition page_of (rows : list Soup.node) : list Soup.node :=
  [Soup.Tag "html" [] [Soup.Tag "body" [] [rates_table rows]]].

Definition header_row : Soup.node :=
  tr [th "Currency Name"; th "Buying Rate"; th "Cash Buying Rate";
      th "Selling Rate"; th "Cash Selling Rate"; th "Middle Rate";
      th "Pub Time"].

Definition eur_cells : list Soup.node :=
  [td "EUR"; td "78000"; td "77500"; td "78300"; td "78600"; td "78150";
   td "09:30:00"].

(** The row of the specification's scenario. *)
Definition usd_cells : list Soup.node :=
  [td " USD "; td "68000"; td "67500"; td "68300"; td "68600"; td "68150";
   td " 09:30:00 "].

Definition page : list Soup.node :=
  page_of [header_row; tr eur_cells; tr usd_cells].

(** A page whose table has no row for the code. *)
Definition page_without_usd : list Soup.node :=
  page_of [header_row; tr eur_cells].

(** A page whose row for the code lacks its last cells. *)
Definition short_cells : list Soup.node := [td "USD"; td "68000"; td "67500"].

Definition page_short_row : list Soup.node :=
  page_of [header_row; tr short_cells; tr usd_cells].

(** A page whose row for the code has an empty rate cell. *)
Definition blank_cells : list Soup.node :=
  [td "USD"; td "68000"; td "  "; td "68300"; td "68600"; td "68150";
   td "09:30:00"].

Definition world_serving (outcomes : nat -> http_outcome) : world :=
  mkWorld outcomes 0 1700000000 (mkFs None None) [].

Definition always (doc : list Soup.node) : nat -> http_outcome :=
  fun _ => Responded (mkResponse 200 doc).

Definition unreachable : nat -> http_outcome :=
  fun _ => ConnectionFailed "connection refused".

(** A page whose row for the code holds [inf] as its buying rate, and
    the record read from it. *)
Definition infinite_cells : list Soup.node :=
  [td "USD"; td "inf"; td "67500"; td "68300"; td "68600"; td "68150";
   td "09:30:00"].

Definition page_infinite_rate : list Soup.node :=
  page_of [header_row; tr infinite_cells].

Definition infinite_record : ExchangeRateRecord :=
  mkRecord "USD" (S754_infinity false)
           (scaled (PyFloat.of_decimal false 67500 0))
           (scaled (PyFloat.of_decimal false 68300 0))
           (scaled (PyFloat.of_decimal false 68600 0))
           (scaled (PyFloat.of_decimal false 68150 0))
           "09:30:00" "2023-11-14 22:13:20".

(** Two records to append. *)
Definition record_1 : ExchangeRateRecord :=
  mkRecord "USD" (PyFloat.of_int 680) (PyFloat.of_int 675) (PyFloat.of_int 683)
           (PyFloat.of_int 686) (PyFloat.of_int 681) "09:30:00"
           "2023-11-14 22:13:20".

Definition record_2 : ExchangeRateRecord :=
  mkRecord "USD" (PyFloat.of_int 681) (PyFloat.of_int 676) (PyFloat.of_int 684)
           (PyFloat.of_int 687) (PyFloat.of_int 682) "10:00:00"
           "2023-11-14 22:43:20".

(** A server that refuses the first connection and serves the page
    afterwards. *)
Definition recovering : nat -> http_outcome :=
  fun n =>
    match n with
    | O => ConnectionFailed "connection refused"
    | _ => Responded (mkResponse 200 page)
    end.

(** A row for the code whose second rate is not a number. *)
Definition garbled_cells : list Soup.node :=
  [td "USD"; td "68000"; td "n/a"; td "68300"; td "68600"; td "68150";
   td "09:30:00"].

End Sample.

(** ** Facts about strings *)

Lemma append_nil_r (s : string) : s ++ EmptyString = s.
Proof.
  induction s as [|a s IH]; [reflexivity|].
  cbn. rewrite IH. reflexivity.
Qed.

Lemma append_assoc (s t u : string) : (s ++ t) ++ u = s ++ (t ++ u).
Proof.
  induction s as [|a s IH]; [reflexivity|].
  cbn. rewrite IH. reflexivity.
Qed.

Lemma is_digit_digit_char (n : N) : PyStr.is_digit (PyStr.digit_char n) = true.
Proof.
  unfold PyStr.digit_char.
  assert (Hlt : (n mod 10 < 10)%N) by (apply N.mod_upper_bound; discriminate).
  remember (n mod 10)%N as d eqn:Hd. clear Hd.
  assert (Hcases : (d = 0 \/ d = 1 \/ d = 2 \/ d = 3 \/ d = 4 \/ d = 5 \/ d = 6
                    \/ d = 7 \/ d = 8 \/ d = 9)%N) by lia.
  repeat destruct Hcases as [-> | Hcases]; try reflexivity.
  subst d. reflexivity.
Qed.

Lemma all_chars_app (P : ascii -> bool) (s t : string) :
  PyStr.all_chars P (s ++ t) = PyStr.all_chars P s && PyStr.all_chars P t.
Proof.
  induction s as [|a s IH]; [reflexivity|].
  cbn. rewrite IH. apply andb_assoc.
Qed.

Lemma contains_app (c : ascii) (s t : string) :
  PyStr.contains c (s ++ t) = PyStr.contains c s || PyStr.contains c t.
Proof.
  induction s as [|a s IH]; [reflexivity|].
  cbn. rewrite IH. apply orb_assoc.
Qed.

(** A character that is not a digit does not occur among digits. *)
Lemma contains_digits (c : ascii) (s : string) :
  PyStr.is_digit c = false ->
  PyStr.all_chars PyStr.is_digit s = true ->
  PyStr.contains c s = false.
Proof.
  intros Hc. induction s as [|a s IH]; [reflexivity|].
  cbn. intros H. apply andb_true_iff in H as [Ha Hs].
  rewrite (IH Hs), orb_false_r.
  destruct (Ascii.eqb_spec c a) as [->|]; [congruence|reflexivity].
Qed.

Lemma dec_digits_digits (fuel : nat) :
  forall n acc, exists ds,
    PyStr.dec_digits fuel n acc = ds ++ acc
    /\ PyStr.all_chars PyStr.is_digit ds = true
    /\ (fuel <> O -> ds <> EmptyString).
Proof.
  induction fuel as [|fuel IH]; intros n acc.
  - exists EmptyString. repeat split. congruence.
  - cbn [PyStr.dec_digits]. cbv zeta.
    destruct (n <? 10)%N.
    + exists (String (PyStr.digit_char n) EmptyString).
      split; [reflexivity|]. split; [|discriminate].
      cbn. rewrite is_digit_digit_char. reflexivity.
    + destruct (IH (n / 10)%N (String (PyStr.digit_char n) acc)) as (ds & Heq & Hds & _).
      exists (ds ++ String (PyStr.digit_char n) EmptyString).
      split; [|split].
      * rewrite Heq, append_assoc. reflexivity.
      * rewrite all_chars_app, Hds. cbn. rewrite is_digit_digit_char. reflexivity.
      * intros _. destruct ds; discriminate.
Qed.

(** [str(n)] is a non-empty string of digits. *)
Lemma str_of_N_digits (n : N) :
  exists d ds,
    PyStr.str_of_N n = String d ds
    /\ PyStr.all_chars PyStr.is_digit (String d ds) = true.
Proof.
  unfold PyStr.str_of_N.
  destruct (dec_digits_digits (S (N.to_nat (N.log2 n))) n EmptyString)
    as (ds & Heq & Hds & Hne).
  rewrite append_nil_r in Heq.
  destruct ds as [|d ds]; [exfalso; apply Hne; [discriminate|reflexivity]|].
  exists d, ds. split; assumption.
Qed.

Lemma span_digits_app (ds rest : string) (c : ascii) :
  PyStr.all_chars PyStr.is_digit ds = true ->
  PyStr.is_digit c = false ->
  PyStr.span_digits (ds ++ String c rest) = (ds, String c rest).
Proof.
  intros Hds Hc. induction ds as [|d ds IH].
  - cbn. rewrite Hc. reflexivity.
  - cbn in Hds |- *. apply andb_true_iff in Hds as [Hd Hds].
    rewrite Hd, (IH Hds). reflexivity.
Qed.

Lemma zero_padded_4 (n : N) :
  PyStr.zero_padded 4 n
  = String (PyStr.digit_char (n / 10 / 10 / 10))
      (String (PyStr.digit_char (n / 10 / 10))
         (String (PyStr.digit_char (n / 10))
            (String (PyStr.digit_char n) EmptyString))).
Proof. reflexivity. Qed.

(** The fuel of [str_of_N] is enough: the digits written read back as
    the number. *)
Lemma digits_val_from_app (a : N) (s t : string) :
  PyStr.digits_val_from a (s ++ t)
  = PyStr.digits_val_from (PyStr.digits_val_from a s) t.
Proof.
  revert a. induction s as [|c s IH]; intros a; [reflexivity|].
  cbn. apply IH.
Qed.

Lemma digit_val_digit_char (n : N) :
  PyStr.digit_val (PyStr.digit_char n) = (n mod 10)%N.
Proof.
  unfold PyStr.digit_char, PyStr.digit_val.
  assert (Hlt : (n mod 10 < 10)%N) by (apply N.mod_upper_bound; discriminate).
  generalize dependent (n mod 10)%N. intros d Hlt.
  rewrite N_ascii_embedding by lia. lia.
Qed.

Lemma dec_digits_value (fuel : nat) :
  forall n acc, (n < 2 ^ N.of_nat fuel)%N ->
    exists ds,
      PyStr.dec_digits fuel n acc = ds ++ acc
      /\ forall a, PyStr.digits_val_from a ds
                   = (a * 10 ^ N.of_nat (String.length ds) + n)%N.
Proof.
  induction fuel as [|fuel IH]; intros n acc Hn.
  - exists EmptyString. split; [reflexivity|].
    intros a. cbn in Hn |- *. lia.
  - cbn [PyStr.dec_digits]. cbv zeta.
    destruct (N.ltb_spec n 10) as [Hsmall|Hbig].
    + exists (String (PyStr.digit_char n) EmptyString).
      split; [reflexivity|]. intros a.
      cbn [PyStr.digits_val_from String.length].
      rewrite digit_val_digit_char, N.mod_small by exact Hsmall.
      change (10 ^ N.of_nat 1)%N with 10%N. lia.
    + assert (Hdiv : (n / 10 < 2 ^ N.of_nat fuel)%N).
      { rewrite Nat2N.inj_succ, N.pow_succ_r' in Hn.
        apply N.Div0.div_lt_upper_bound. lia. }
      destruct (IH (n / 10)%N (String (PyStr.digit_char n) acc) Hdiv)
        as (ds & Heq & Hval).
      exists (ds ++ String (PyStr.digit_char n) EmptyString).
      split; [rewrite Heq, append_assoc; reflexivity|].
      intros a. rewrite digits_val_from_app, Hval.
      cbn [PyStr.digits_val_from]. rewrite digit_val_digit_char.
      assert (Hlen : String.length (ds ++ String (PyStr.digit_char n) EmptyString)
                     = S (String.length ds)).
      { clear. induction ds as [|c ds IHds]; [reflexivity|].
        cbn. rewrite IHds. reflexivity. }
      rewrite Hlen, Nat2N.inj_succ, N.pow_succ_r'.
      pose proof (N.div_mod n 10 ltac:(discriminate)). nia.
Qed.

Lemma str_of_N_value (n : N) : PyStr.digits_val (PyStr.str_of_N n) = n.
Proof.
  unfold PyStr.str_of_N, PyStr.digits_val.
  assert (Hn : (n < 2 ^ N.of_nat (S (N.to_nat (N.log2 n))))%N).
  { rewrite Nat2N.inj_succ, N2Nat.id.
    destruct n as [|p]; [reflexivity|].
    apply N.log2_spec. reflexivity. }
  destruct (dec_digits_value _ n EmptyString Hn) as (ds & Heq & Hval).
  rewrite Heq, append_nil_r, Hval. lia.
Qed.

Lemma split_at_delimiter (c : ascii) (a b r r' : string) :
  PyStr.contains c a = false ->
  PyStr.contains c b = false ->
  a ++ String c r = b ++ String c r' ->
  a = b /\ r = r'.
Proof.
  revert b. induction a as [|x a IH]; intros [|y b] Ha Hb Heq; cbn in *.
  - injection Heq as ->. split; reflexivity.
  - injection Heq as <- _. rewrite Ascii.eqb_refl in Hb. discriminate.
  - injection Heq as -> _. rewrite Ascii.eqb_refl in Ha. discriminate.
  - injection Heq as -> Heq.
    apply orb_false_iff in Ha as [_ Ha]. apply orb_false_iff in Hb as [_ Hb].
    destruct (IH b Ha Hb Heq) as [-> ->]. split; reflexivity.
Qed.

Lemma find_map_first {A B} (f : B -> bool) (g : A -> B)
  (before : list A) (x : A) (after : list A) :
  (forall r, In r before -> f (g r) = false) ->
  f (g x) = true ->
  List.find f (map g (before ++ x :: after)) = Some (g x).
Proof.
  intros Hbefore Hx.
  induction before as [|b before IH]; cbn [app map List.find].
  - rewrite Hx. reflexivity.
  - rewrite (Hbefore b (or_introl eq_refl)).
    apply IH. intros r Hr. apply Hbefore. right. exact Hr.
Qed.

Lemma find_map_none {A B} (f : B -> bool) (g : A -> B) (l : list A) :
  (forall r, In r l -> f (g r) = false) ->
  List.find f (map g l) = None.
Proof.
  intros Hnone.
  induction l as [|b l IH]; cbn [map List.find]; [reflexivity|].
  rewrite (Hnone b (or_introl eq_refl)).
  apply IH. intros r Hr. apply Hnone. right. exact Hr.
Qed.

(** ** Formatting of the rates *)

(** A finite rate is written with a sign, an integer part and exactly
    four decimals. *)
Lemma format_4f_finite (x : PyFloat.float) :
  PyFloat.is_finite x = true ->
  exists neg ip fp,
    PyFloat.format_4f x = PyFloat.sign_str neg ++ ip ++ String "." fp
    /\ ip <> EmptyString
    /\ PyStr.all_chars PyStr.is_digit ip = true
    /\ String.length fp = 4%nat
    /\ PyStr.all_chars PyStr.is_digit fp = true.
Proof.
  destruct x as [s|s| |s m e]; try discriminate; intros _.
  - exists s, "0", "0000". repeat split. discriminate.
  - cbn [PyFloat.format_4f]. cbv zeta.
    set (n := PyFloat.scaled4 m e).
    destruct (str_of_N_digits (n / 10000)) as (d & ds & Heq & Hds).
    exists s, (PyStr.str_of_N (n / 10000)), (PyStr.zero_padded 4 (n mod 10000)).
    split; [reflexivity|]. rewrite Heq. split; [discriminate|]. split; [exact Hds|].
    rewrite zero_padded_4. split; [reflexivity|].
    cbn [PyStr.all_chars]. rewrite !is_digit_digit_char. reflexivity.
Qed.

Lemma is_fixed4_format_4f (x : PyFloat.float) :
  PyFloat.is_finite x = true -> is_fixed4 (PyFloat.format_4f x) = true.
Proof.
  intros Hfin.
  destruct (format_4f_finite x Hfin) as (neg & ip & fp & -> & Hne & Hip & Hlen & Hfp).
  destruct ip as [|d ds]; [congruence|].
  assert (Hspan : PyStr.span_digits (String d ds ++ String "." fp)
                  = (String d ds, String "." fp))
    by (apply span_digits_app; [exact Hip|reflexivity]).
  assert (Hd : Ascii.eqb d "-" = false).
  { cbn in Hip. apply andb_true_iff in Hip as [Hd _].
    destruct (Ascii.eqb_spec d "-") as [->|]; [discriminate|reflexivity]. }
  unfold is_fixed4.
  destruct neg; cbn [PyFloat.sign_str append].
  - change (Ascii.eqb "-" "-") with true. cbv iota.
    change (String d (ds ++ String "." fp)) with (String d ds ++ String "." fp).
    rewrite Hspan, Hlen, Hfp. reflexivity.
  - rewrite Hd.
    change (String d (ds ++ String "." fp)) with (String d ds ++ String "." fp).
    rewrite Hspan, Hlen, Hfp. reflexivity.
Qed.

(** A formatted rate holds no character the writer would quote. *)
Lemma format_4f_plain (x : PyFloat.float) (c : ascii) :
  PyStr.is_digit c = false ->
  Ascii.eqb c "-" = false -> Ascii.eqb c "." = false ->
  Ascii.eqb c "i" = false -> Ascii.eqb c "n" = false ->
  Ascii.eqb c "f" = false -> Ascii.eqb c "a" = false ->
  PyStr.contains c (PyFloat.format_4f x) = false.
Proof.
  intros Hdig Hminus Hdot Hi Hn Hf Ha.
  assert (Hsign : forall s, PyStr.contains c (PyFloat.sign_str s) = false).
  { intros [|]; cbn; [rewrite Hminus|]; reflexivity. }
  destruct (PyFloat.is_finite x) eqn:Hfin.
  - destruct (format_4f_finite x Hfin) as (neg & ip & fp & -> & _ & Hip & _ & Hfp).
    rewrite !contains_app, Hsign, (contains_digits c ip Hdig Hip).
    cbn. rewrite Hdot, (contains_digits c fp Hdig Hfp). reflexivity.
  - destruct x as [s|s| |s m e]; try discriminate.
    + cbn [PyFloat.format_4f]. rewrite contains_app, Hsign.
      cbn. rewrite Hi, Hn, Hf. reflexivity.
    + cbn. rewrite Hn, Ha. reflexivity.
Qed.

Lemma write_field_format_4f (x : PyFloat.float) :
  Csv.write_field Csv.TAB (PyFloat.format_4f x) = PyFloat.format_4f x.
Proof.
  unfold Csv.write_field, Csv.needs_quotes.
  rewrite !format_4f_plain by reflexivity. reflexivity.
Qed.

(** A data row cannot be taken for the header row: its second field is
    a formatted number. *)
Lemma format_4f_first_char (x : PyFloat.float) :
  exists c s, PyFloat.format_4f x = String c s /\ Ascii.eqb c "B" = false.
Proof.
  destruct (PyFloat.is_finite x) eqn:Hfin.
  - destruct (format_4f_finite x Hfin) as (neg & ip & fp & -> & Hne & Hip & _).
    destruct ip as [|d ds]; [congruence|].
    destruct neg; cbn [PyFloat.sign_str append].
    + eexists _, _. split; reflexivity.
    + eexists _, _. split; [reflexivity|].
      cbn in Hip. apply andb_true_iff in Hip as [Hd _].
      destruct (Ascii.eqb_spec d "B") as [->|]; [discriminate|reflexivity].
  - destruct x as [s|[|]| |s m e]; try discriminate;
      eexists _, _; split; reflexivity.
Qed.

(** ** Extraction of one row *)

Lemma float_of_or_else (c : Soup.node) :
  float_of (or_else (PyStr.strip (Soup.text c)) 0) =
  match cell_value c with
  | Some v => Ok v
  | None => Raise (ValueError (PyStr.strip (Soup.text c)))
  end.
Proof.
  unfold cell_value, or_else, float_of.
  destruct (PyStr.strip (Soup.text c)) as [|a t]; [reflexivity|].
  destruct (PyFloat.of_str (String a t)); reflexivity.
Qed.

(** One rate: an index access, then a parse, then the scaling; the
    world is only read. *)
Lemma rate_of_eq (cells : list Soup.node) (i : nat) (w : world) :
  rate_of cells i w =
  (match nth_error cells i with
   | None => Raise IndexError
   | Some c =>
       match cell_value c with
       | Some v => Ok (scaled v)
       | None => Raise (ValueError (PyStr.strip (Soup.text c)))
       end
   end, w).
Proof.
  unfold rate_of, bind, lift, getitem, ret.
  destruct (nth_error cells i) as [c|]; [|reflexivity].
  rewrite float_of_or_else.
  destruct (cell_value c); reflexivity.
Qed.

Lemma bind_rate_of {B} (cells : list Soup.node) (i : nat) (k : PyFloat.float -> M B)
  (w : world) :
  bind (rate_of cells i) k w =
  match nth_error cells i with
  | None => (Raise IndexError, w)
  | Some c =>
      match cell_value c with
      | Some v => k (scaled v) w
      | None => (Raise (ValueError (PyStr.strip (Soup.text c))), w)
      end
  end.
Proof.
  unfold bind. rewrite rate_of_eq.
  destruct (nth_error cells i) as [c|]; [|reflexivity].
  destruct (cell_value c); reflexivity.
Qed.

Ltac next_rate :=
  rewrite bind_rate_of;
  match goal with
  | |- context [nth_error ?cs ?i] =>
      let c := fresh "c" in
      destruct (nth_error cs i) as [c|] eqn:?; [destruct (cell_value c) eqn:?|]
  end.

Lemma make_record_world (cells : list Soup.node) (w : world) :
  snd (make_record cells w) = w.
Proof.
  unfold make_record.
  do 5 (next_rate; [|reflexivity..]).
  unfold bind, lift, getitem, datetime_now, ret.
  destruct (nth_error cells 6); reflexivity.
Qed.

(** The program builds a record exactly when the row-to-record mapping
    is defined, and then it is that record. *)
Lemma make_record_ok (cells : list Soup.node) (w : world) (r : ExchangeRateRecord) :
  fst (make_record cells w) = Ok r <-> row_to_record "USD" cells (clock w) = Some r.
Proof.
  unfold make_record, row_to_record.
  destruct cells as [|c0 [|c1 [|c2 [|c3 [|c4 [|c5 [|c6 rest]]]]]]];
    repeat (rewrite bind_rate_of; cbn [nth_error];
            match goal with
            | |- context [cell_value ?c] => destruct (cell_value c)
            end);
    try (rewrite bind_rate_of);
    cbn; try (split; discriminate).
  unfold scaled. split; intros H; inversion H; reflexivity.
Qed.

Lemma make_record_fails (cells : list Soup.node) (w : world) :
  row_to_record "USD" cells (clock w) = None ->
  exists e, make_record cells w = (Raise e, w).
Proof.
  intros Hnone.
  pose proof (make_record_world cells w) as Hw.
  destruct (make_record cells w) as [[r|e] w'] eqn:E; simpl in Hw; subst w'.
  - assert (H : fst (make_record cells w) = Ok r) by (rewrite E; reflexivity).
    apply make_record_ok in H. congruence.
  - exists e. reflexivity.
Qed.

Lemma make_record_succeeds (cells : list Soup.node) (w : world) (r : ExchangeRateRecord) :
  row_to_record "USD" cells (clock w) = Some r ->
  make_record cells w = (Ok r, w).
Proof.
  intros H. apply make_record_ok in H.
  pose proof (make_record_world cells w) as Hw.
  destruct (make_record cells w) as [x w']. simpl in *. congruence.
Qed.

(** The guarded comparison never raises and only reads. *)
Lemma is_usd_row_eq (cells : list Soup.node) (w : world) :
  is_usd_row cells w = (Ok (first_cell_is "USD" cells), w).
Proof.
  destruct cells as [|c rest]; reflexivity.
Qed.

(** The row loop finds the first row for the code, whatever comes
    before it. *)
Lemma scan_rows_eq (rows : list Soup.node) (w : world) :
  scan_rows rows w =
  match List.find (first_cell_is "USD") (map (Soup.find_all "td") rows) with
  | Some cells => make_record cells w
  | None => (Raise (Exception "USD rate not found in the table"), w)
  end.
Proof.
  induction rows as [|row rest IH]; [reflexivity|].
  cbn [scan_rows map List.find]. unfold bind.
  rewrite is_usd_row_eq.
  destruct (first_cell_is "USD" (Soup.find_all "td" row)); [reflexivity|].
  exact IH.
Qed.

Lemma scan_rows_world (rows : list Soup.node) (w : world) :
  snd (scan_rows rows w) = w.
Proof.
  rewrite scan_rows_eq.
  destruct (List.find _ _); [apply make_record_world|reflexivity].
Qed.


(** The row-to-record mapping is defined exactly on the fully parsed
    rows. *)
Lemma not_fully_parsed_no_record (code : string) (cells : list Soup.node) (now : Z) :
  fully_parsed cells = false <-> row_to_record code cells now = None.
Proof.
  unfold fully_parsed, row_to_record, has_number.
  destruct cells as [|c0 [|c1 [|c2 [|c3 [|c4 [|c5 [|c6 rest]]]]]]];
    try (split; reflexivity).
  cbn [List.length Nat.leb tl firstn forallb andb].
  destruct (cell_value c1), (cell_value c2), (cell_value c3), (cell_value c4),
    (cell_value c5); cbn; split; intros H; try reflexivity; discriminate.
Qed.

(** ** One attempt and the retry loop *)

Section RetryLoop.

Variable self : ExchangeRateParser.
Hypothesis delay_not_negative : 0 <= retry_delay self.

(** What one attempt does, failure by failure. *)
Lemma attempt_body_eq (w : world) :
  attempt_body self w =
  match http w (requests_sent w) with
  | ConnectionFailed reason => (Raise (RequestException reason), requested self w)
  | Responded r =>
      if (400 <=? status_code r) && (status_code r <? 600)
      then (Raise (HTTPError (status_code r)), requested self w)
      else
        match Soup.find "table" table_signature (Soup.BeautifulSoup (document r)) with
        | None => (Raise (Exception "Exchange rate table not found"), requested self w)
        | Some table =>
            match first_row_for "USD" (Soup.find_all "tr" table) with
            | Some cells => make_record cells (requested self w)
            | None =>
                (Raise (Exception "USD rate not found in the table"), requested self w)
            end
        end
  end.
Proof.
  unfold attempt_body, bind, requests_get, raise_for_status. fold (requested self w).
  destruct (http w (requests_sent w)) as [reason|r]; [reflexivity|].
  destruct ((400 <=? status_code r) && (status_code r <? 600)); [reflexivity|].
  cbn [ret].
  destruct (Soup.find "table" table_signature _) as [table|]; [|reflexivity].
  apply scan_rows_eq.
Qed.

Lemma attempt_body_world (w : world) :
  snd (attempt_body self w) = requested self w.
Proof.
  unfold attempt_body, bind, requests_get, raise_for_status. fold (requested self w).
  destruct (http w (requests_sent w)) as [reason|r]; [reflexivity|].
  destruct ((400 <=? status_code r) && (status_code r <? 600)); [reflexivity|].
  cbn [ret].
  destruct (Soup.find "table" table_signature _) as [table|]; [|reflexivity].
  apply scan_rows_world.
Qed.

Lemma attempts_ok (a : Z) (rest : list Z)
  (w w1 : world) (r : ExchangeRateRecord) :
  attempt_body self w = (Ok r, w1) ->
  attempts self (a :: rest) w = (Ok (Some r), requested self w).
Proof.
  intros H. pose proof (attempt_body_world w) as Hw.
  rewrite H in Hw. simpl in Hw. subst w1.
  cbn [attempts]. unfold try_except, bind. rewrite H. reflexivity.
Qed.

(** Whatever exception an attempt raises, the handler logs it and then
    either pauses and goes on with the loop or gives up. *)
Lemma attempts_raise (a : Z) (rest : list Z)
  (w w1 : world) (e : exn) :
  attempt_body self w = (Raise e, w1) ->
  attempts self (a :: rest) w =
  if a <? max_retries self - 1
  then attempts self rest (after_pause self (a + 1) e w)
  else (Ok None, after_giving_up self (a + 1) e w).
Proof.
  intros H. pose proof (attempt_body_world w) as Hw.
  rewrite H in Hw. simpl in Hw. subst w1.
  cbn [attempts]. unfold try_except at 1. unfold bind at 1. rewrite H.
  unfold bind at 1. unfold logging_error at 1, emit.
  destruct (a <? max_retries self - 1).
  - unfold bind at 1, logging_info at 1, emit.
    unfold bind at 1, time_sleep at 1.
    destruct (Z.ltb_spec (retry_delay self) 0) as [Hneg|_]; [lia|].
    unfold after_pause, requested, failed_round, pause. cbn.
    rewrite <- !app_assoc. reflexivity.
  - unfold bind, logging_error, emit, ret.
    unfold after_giving_up, requested, failed_round, giving_up. cbn.
    rewrite <- !app_assoc. reflexivity.
Qed.

End RetryLoop.

(** The three attempts of [get_exchange_rates], unrolled. *)
Lemma get_exchange_rates_unrolled (w : world) :
  get_exchange_rates init w =
  match fst (attempt_body init w) with
  | Ok r => (Ok (Some r), requested init w)
  | Raise e1 =>
      let w1 := after_pause init 1 e1 w in
      match fst (attempt_body init w1) with
      | Ok r => (Ok (Some r), requested init w1)
      | Raise e2 =>
          let w2 := after_pause init 2 e2 w1 in
          match fst (attempt_body init w2) with
          | Ok r => (Ok (Some r), requested init w2)
          | Raise e3 => (Ok None, after_giving_up init 3 e3 w2)
          end
      end
  end.
Proof.
  assert (Hd : 0 <= retry_delay init) by (cbn; lia).
  unfold get_exchange_rates.
  change (range (max_retries init)) with [0; 1; 2].
  destruct (attempt_body init w) as [[r|e1] x] eqn:E1; cbn [fst].
  { eapply attempts_ok; eassumption. }
  rewrite (attempts_raise init Hd 0 _ w x e1 E1).
  change (0 <? max_retries init - 1) with true. cbv iota. change (0 + 1) with 1.
  cbv zeta.
  destruct (attempt_body init (after_pause init 1 e1 w)) as [[r|e2] x2] eqn:E2; cbn [fst].
  { eapply attempts_ok; eassumption. }
  rewrite (attempts_raise init Hd 1 _ _ x2 e2 E2).
  change (1 <? max_retries init - 1) with true. cbv iota. change (1 + 1) with 2.
  destruct (attempt_body init (after_pause init 2 e2 (after_pause init 1 e1 w)))
    as [[r|e3] x3] eqn:E3; cbn [fst].
  { eapply attempts_ok; eassumption. }
  rewrite (attempts_raise init Hd 2 _ _ x3 e3 E3).
  reflexivity.
Qed.

(** The failures of one attempt, kind by kind. *)
Lemma attempt_failure_kinds (w : world) :
  (forall reason,
      http w (requests_sent w) = ConnectionFailed reason ->
      attempt_body init w = (Raise (RequestException reason), requested init w))
  /\ (forall resp,
         http w (requests_sent w) = Responded resp ->
         400 <= status_code resp < 600 ->
         attempt_body init w = (Raise (HTTPError (status_code resp)), requested init w))
  /\ (forall resp,
         http w (requests_sent w) = Responded resp ->
         ~ 400 <= status_code resp < 600 ->
         Soup.find "table" table_signature (Soup.BeautifulSoup (document resp)) = None ->
         attempt_body init w
           = (Raise (Exception "Exchange rate table not found"), requested init w)).
Proof.
  repeat split; intros; rewrite attempt_body_eq.
  - rewrite H. reflexivity.
  - rewrite H.
    replace ((400 <=? status_code resp) && (status_code resp <? 600)) with true
      by (symmetry; apply andb_true_iff; split; [apply Z.leb_le|apply Z.ltb_lt]; lia).
    reflexivity.
  - rewrite H.
    replace ((400 <=? status_code resp) && (status_code resp <? 600)) with false.
    + rewrite H1. reflexivity.
    + symmetry. apply andb_false_iff.
      destruct (Z.leb_spec 400 (status_code resp)); [right|left; reflexivity].
      apply Z.ltb_ge. lia.
Qed.

(** A page without the table, or without a row for the code, makes the
    attempt raise. *)
Lemma lacks_row_raises (w : world) (resp : response) :
  http w (requests_sent w) = Responded resp ->
  lacks_row "USD" (document resp) = true ->
  exists e, fst (attempt_body init w) = Raise e.
Proof.
  intros Hresp. unfold lacks_row. rewrite attempt_body_eq, Hresp.
  destruct ((400 <=? status_code resp) && (status_code resp <? 600));
    [intros _; eexists; reflexivity|].
  destruct (Soup.find "table" table_signature _) as [table|];
    [|intros _; eexists; reflexivity].
  destruct (first_row_for "USD" _); [discriminate|].
  intros _. eexists. reflexivity.
Qed.

(** Fetching only reads the file system. *)
Lemma get_exchange_rates_fs (w : world) :
  fs (snd (get_exchange_rates init w)) = fs w.
Proof.
  rewrite get_exchange_rates_unrolled. cbv zeta.
  repeat match goal with
    | |- context [fst (attempt_body init ?x)] =>
        destruct (fst (attempt_body init x)); [reflexivity|]
    end.
  reflexivity.
Qed.

(** ** The output store *)

Lemma header_text_eq : Csv.header_text Csv.TAB fieldnames = header_line.
Proof. reflexivity. Qed.

Lemma dict_to_list_formatted (r : ExchangeRateRecord) :
  Csv.dict_to_list fieldnames (formatted_data r) = data_fields r.
Proof. reflexivity. Qed.

Lemma row_text_eq (r : ExchangeRateRecord) :
  Csv.row_text Csv.TAB fieldnames (formatted_data r) = data_line r.
Proof.
  unfold Csv.row_text. rewrite dict_to_list_formatted.
  unfold Csv.writerow, data_line, data_fields.
  destruct (Currency_Name r); reflexivity.
Qed.

(** One call of [save_to_csv], by the state of the two paths. *)
Lemma save_to_csv_eq (r : ExchangeRateRecord) (w : world) :
  save_to_csv init (Some r) w =
  match at_data_dir (fs w), at_output_file (fs w) with
  | Some (File _), _ => (Raise (FileExistsError "data"), w)
  | _, Some Dir =>
      (Raise (IsADirectoryError "data/exchange_rates.csv"),
       set_fs (mkFs (Some Dir) (Some Dir)) w)
  | _, Some (File c) =>
      (Ok tt,
       mkWorld (http w) (requests_sent w) (clock w)
               (mkFs (Some Dir) (Some (File (c ++ data_line r))))
               (trace w ++ [Log INFO (SavedTo "data/exchange_rates.csv")]))
  | _, None =>
      (Ok tt,
       mkWorld (http w) (requests_sent w) (clock w)
               (mkFs (Some Dir) (Some (File (header_line ++ data_line r))))
               (trace w ++ [Log INFO (SavedTo "data/exchange_rates.csv")]))
  end.
Proof.
  unfold save_to_csv. rewrite row_text_eq, header_text_eq.
  destruct w as [h n t [d o] tr].
  destruct d as [[|dc]|], o as [[|c]|]; reflexivity.
Qed.

Lemma data_line_not_header (r : ExchangeRateRecord) : data_line r <> header_line.
Proof.
  unfold data_line, data_fields. cbn [map PyStr.join].
  rewrite write_field_format_4f.
  destruct (format_4f_first_char (Buying_Rate r)) as (c & s & -> & Hc).
  unfold Csv.write_field at 1.
  destruct (Csv.needs_quotes Csv.TAB (Currency_Name r)) eqn:Hq.
  - discriminate.
  - unfold Csv.needs_quotes in Hq.
    apply orb_false_iff in Hq as [Hq _]. apply orb_false_iff in Hq as [Hq _].
    apply orb_false_iff in Hq as [Hq _].
    intros Heq.
    change header_line
      with ("Currency Name"
              ++ String Csv.TAB
                   (PyStr.join (String Csv.TAB EmptyString) (tl fieldnames)
                      ++ Csv.lineterminator)) in Heq.
    rewrite append_assoc in Heq. cbn [append] in Heq.
    apply (split_at_delimiter Csv.TAB _ "Currency Name") in Heq as [_ Heq];
      [|exact Hq|reflexivity].
    cbn in Heq. injection Heq as -> _. discriminate.
Qed.

(** ** The claims of the specification *)

(** C1. When the page served carries the table and the row for the code
    is well formed (seven cells, the five rate cells numeric or empty),
    [get_exchange_rates] returns a record whose five rates are the
    numbers of cells 1 to 5 divided by 100 and whose published time is
    the trimmed text of cell 6. *)
Theorem get_exchange_rates_well_formed
  (w : world) (resp : response) (table c0 c1 c2 c3 c4 c5 c6 : Soup.node)
  (more : list Soup.node) (v1 v2 v3 v4 v5 : PyFloat.float) :
  http w (requests_sent w) = Responded resp ->
  (400 <=? status_code resp) && (status_code resp <? 600) = false ->
  Soup.find "table" table_signature (Soup.BeautifulSoup (document resp)) = Some table ->
  first_row_for "USD" (Soup.find_all "tr" table)
    = Some (c0 :: c1 :: c2 :: c3 :: c4 :: c5 :: c6 :: more) ->
  cell_value c1 = Some v1 -> cell_value c2 = Some v2 ->
  cell_value c3 = Some v3 -> cell_value c4 = Some v4 ->
  cell_value c5 = Some v5 ->
  exists r w',
    get_exchange_rates init w = (Ok (Some r), w')
    /\ Buying_Rate r = PyFloat.div v1 (PyFloat.of_int 100)
    /\ Cash_Buying_Rate r = PyFloat.div v2 (PyFloat.of_int 100)
    /\ Selling_Rate r = PyFloat.div v3 (PyFloat.of_int 100)
    /\ Cash_Selling_Rate r = PyFloat.div v4 (PyFloat.of_int 100)
    /\ Middle_Rate r = PyFloat.div v5 (PyFloat.of_int 100)
    /\ Pub_Time r = PyStr.strip (Soup.text c6).
Proof.
  intros Hresp Hstatus Htable Hrow H1 H2 H3 H4 H5.
  set (cells := c0 :: c1 :: c2 :: c3 :: c4 :: c5 :: c6 :: more) in *.
  set (r := mkRecord "USD" (scaled v1) (scaled v2) (scaled v3) (scaled v4)
                     (scaled v5) (PyStr.strip (Soup.text c6))
                     (Strftime.format (clock w))).
  assert (Hrec : row_to_record "USD" cells (clock (requested init w)) = Some r).
  { unfold row_to_record, cells. rewrite H1, H2, H3, H4, H5. reflexivity. }
  exists r, (requested init w).
  split; [|repeat split].
  rewrite get_exchange_rates_unrolled, attempt_body_eq.
  rewrite Hresp, Hstatus, Htable, Hrow.
  rewrite (make_record_succeeds _ _ _ Hrec). reflexivity.
Qed.

Lemma get_exchange_rates_well_formed_witness :
  exists r w',
    get_exchange_rates init (Sample.world_serving (Sample.always Sample.page))
      = (Ok (Some r), w')
    /\ Buying_Rate r = PyFloat.div (PyFloat.of_decimal false 68000 0) (PyFloat.of_int 100)
    /\ Cash_Buying_Rate r = PyFloat.div (PyFloat.of_decimal false 67500 0) (PyFloat.of_int 100)
    /\ Selling_Rate r = PyFloat.div (PyFloat.of_decimal false 68300 0) (PyFloat.of_int 100)
    /\ Cash_Selling_Rate r = PyFloat.div (PyFloat.of_decimal false 68600 0) (PyFloat.of_int 100)
    /\ Middle_Rate r = PyFloat.div (PyFloat.of_decimal false 68150 0) (PyFloat.of_int 100)
    /\ Pub_Time r = "09:30:00".
Proof.
  exact (get_exchange_rates_well_formed
           (Sample.world_serving (Sample.always Sample.page))
           (mkResponse 200 Sample.page)
           (Sample.rates_table
              [Sample.header_row; Sample.tr Sample.eur_cells; Sample.tr Sample.usd_cells])
           (Sample.td " USD ") (Sample.td "68000") (Sample.td "67500")
           (Sample.td "68300") (Sample.td "68600") (Sample.td "68150")
           (Sample.td " 09:30:00 ") []
           (PyFloat.of_decimal false 68000 0) (PyFloat.of_decimal false 67500 0)
           (PyFloat.of_decimal false 68300 0) (PyFloat.of_decimal false 68600 0)
           (PyFloat.of_decimal false 68150 0)
           eq_refl eq_refl eq_refl eq_refl eq_refl eq_refl eq_refl eq_refl eq_refl).
Defined.

(** C2, as the program has it.  The attempt walks the rows of the table
    after the first one and returns the record of the first row whose
    first cell, trimmed, is [USD]; the rows before it, whatever code
    they carry, are passed over.  When no row qualifies the attempt
    raises, and the retry loop treats that like any other failure.  The
    code is the constant [USD] of the program: [get_exchange_rates]
    takes no currency code. *)
Theorem attempt_takes_first_row_for_code
  (w : world) (resp : response) (table : Soup.node) :
  http w (requests_sent w) = Responded resp ->
  (400 <=? status_code resp) && (status_code resp <? 600) = false ->
  Soup.find "table" table_signature (Soup.BeautifulSoup (document resp)) = Some table ->
  (forall before row after,
      tl (Soup.find_all "tr" table) = (before ++ row :: after)%list ->
      (forall r, In r before -> first_cell_is "USD" (Soup.find_all "td" r) = false) ->
      first_cell_is "USD" (Soup.find_all "td" row) = true ->
      fully_parsed (Soup.find_all "td" row) = true ->
      exists r now,
        row_to_record "USD" (Soup.find_all "td" row) now = Some r
        /\ attempt_body init w = (Ok r, requested init w)
        /\ get_exchange_rates init w = (Ok (Some r), requested init w))
  /\ ((forall r, In r (tl (Soup.find_all "tr" table)) ->
                 first_cell_is "USD" (Soup.find_all "td" r) = false) ->
      attempt_body init w
        = (Raise (Exception "USD rate not found in the table"), requested init w)
      /\ forall a rest,
          attempts init (a :: rest) w =
          if a <? 2
          then attempts init rest
                 (after_pause init (a + 1)
                    (Exception "USD rate not found in the table") w)
          else (Ok None,
                after_giving_up init (a + 1)
                  (Exception "USD rate not found in the table") w)).
Proof.
  intros Hresp Hstatus Htable.
  pose proof (attempt_body_eq init w) as Hbody.
  rewrite Hresp, Hstatus, Htable in Hbody. unfold first_row_for in Hbody.
  split.
  - intros before row after Hrows Hbefore Hrow Hfull.
    destruct (row_to_record "USD" (Soup.find_all "td" row) (clock (requested init w)))
      as [r|] eqn:Hrec.
    2:{ apply not_fully_parsed_no_record in Hrec. congruence. }
    assert (Hb : attempt_body init w = (Ok r, requested init w)).
    { rewrite Hbody, Hrows.
      rewrite (find_map_first _ _ before row after Hbefore Hrow).
      apply make_record_succeeds. exact Hrec. }
    exists r, (clock (requested init w)).
    split; [exact Hrec|]. split; [exact Hb|].
    rewrite get_exchange_rates_unrolled, Hb. reflexivity.
  - intros Hnone.
    rewrite (find_map_none _ _ _ Hnone) in Hbody. split; [exact Hbody|].
    intros a rest.
    apply (attempts_raise init ltac:(cbn; lia) a rest w _ _ Hbody).
Qed.

Lemma attempt_takes_first_row_for_code_witness :
  (exists r now,
      row_to_record "USD" Sample.usd_cells now = Some r
      /\ attempt_body init (Sample.world_serving (Sample.always Sample.page))
         = (Ok r, requested init (Sample.world_serving (Sample.always Sample.page)))
      /\ get_exchange_rates init (Sample.world_serving (Sample.always Sample.page))
         = (Ok (Some r),
            requested init (Sample.world_serving (Sample.always Sample.page))))
  /\ attempt_body init (Sample.world_serving (Sample.always Sample.page_without_usd))
    = (Raise (Exception "USD rate not found in the table"),
       requested init (Sample.world_serving (Sample.always Sample.page_without_usd))).
Proof.
  split.
  - refine (proj1 (attempt_takes_first_row_for_code
                     (Sample.world_serving (Sample.always Sample.page))
                     (mkResponse 200 Sample.page)
                     (Sample.rates_table
                        [Sample.header_row; Sample.tr Sample.eur_cells;
                         Sample.tr Sample.usd_cells])
                     eq_refl eq_refl eq_refl)
                  [Sample.tr Sample.eur_cells] (Sample.tr Sample.usd_cells) []
                  eq_refl _ eq_refl eq_refl).
    intros r [Hr|[]]. subst r. reflexivity.
  - refine (proj1 (proj2 (attempt_takes_first_row_for_code
                     (Sample.world_serving (Sample.always Sample.page_without_usd))
                     (mkResponse 200 Sample.page_without_usd)
                     (Sample.rates_table
                        [Sample.header_row; Sample.tr Sample.eur_cells])
                     eq_refl eq_refl eq_refl) _)).
    intros r [Hr|[]]. subst r. reflexivity.
Defined.

(** The claim with the code a parameter fails for every code but [USD].
    On a page whose only data row is a well-formed row for [EUR], the
    first row for [EUR] is there and a record can be built from it, yet
    the attempt raises for want of a [USD] row and the fetch returns
    [None]: no call of [get_exchange_rates] serves a request for
    [EUR]. *)
Lemma other_code_is_not_served :
  Soup.find "table" table_signature (Soup.BeautifulSoup Sample.page_without_usd)
    = Some (Sample.rates_table [Sample.header_row; Sample.tr Sample.eur_cells])
  /\ first_row_for "EUR"
       (Soup.find_all "tr"
          (Sample.rates_table [Sample.header_row; Sample.tr Sample.eur_cells]))
     = Some Sample.eur_cells
  /\ row_to_record "EUR" Sample.eur_cells 1700000000
     = Some (mkRecord "EUR"
               (scaled (PyFloat.of_decimal false 78000 0))
               (scaled (PyFloat.of_decimal false 77500 0))
               (scaled (PyFloat.of_decimal false 78300 0))
               (scaled (PyFloat.of_decimal false 78600 0))
               (scaled (PyFloat.of_decimal false 78150 0))
               "09:30:00" "2023-11-14 22:13:20")
  /\ attempt_body init (Sample.world_serving (Sample.always Sample.page_without_usd))
     = (Raise (Exception "USD rate not found in the table"),
        requested init (Sample.world_serving (Sample.always Sample.page_without_usd)))
  /\ fst (get_exchange_rates init
            (Sample.world_serving (Sample.always Sample.page_without_usd)))
     = Ok None
  /\ ~ (forall (code : string) (w : world) (resp : response) (table : Soup.node)
               (cells : list Soup.node),
           http w (requests_sent w) = Responded resp ->
           (400 <=? status_code resp) && (status_code resp <? 600) = false ->
           Soup.find "table" table_signature (Soup.BeautifulSoup (document resp))
             = Some table ->
           first_row_for code (Soup.find_all "tr" table) = Some cells ->
           fully_parsed cells = true ->
           exists r now,
             row_to_record code cells now = Some r
             /\ fst (get_exchange_rates init w) = Ok (Some r)).
Proof.
  do 5 (split; [vm_compute; reflexivity|]).
  intros H.
  destruct (H "EUR" (Sample.world_serving (Sample.always Sample.page_without_usd))
              (mkResponse 200 Sample.page_without_usd)
              (Sample.rates_table [Sample.header_row; Sample.tr Sample.eur_cells])
              Sample.eur_cells eq_refl eq_refl eq_refl eq_refl eq_refl)
    as (r & now & _ & Hget).
  vm_compute in Hget. discriminate Hget.
Qed.

(** C3. Every exception an attempt raises is caught by the one handler,
    whatever it is; the handler pauses for 5 seconds and goes on while
    attempts remain, and gives up after the third.  So
    [get_exchange_rates] never raises, sends at most three requests,
    sleeps 5 seconds after each failed attempt but the last, and returns
    [None] once three attempts have failed, having slept exactly
    twice. *)
Theorem retry_policy :
  max_retries init = 3
  /\ pause init = [Log INFO (RetryingIn 5); Sleep 5]
  /\ (forall a rest w w1 e,
         attempt_body init w = (Raise e, w1) ->
         attempts init (a :: rest) w =
         if a <? 2
         then attempts init rest (after_pause init (a + 1) e w)
         else (Ok None, after_giving_up init (a + 1) e w))
  /\ (forall w, exists res w' errors,
         get_exchange_rates init w = (Ok res, w')
         /\ (requests_sent w' <= requests_sent w + 3)%nat
         /\ match res with
            | Some _ =>
                (List.length errors <= 2)%nat
                /\ trace w' = (trace w ++ failed_rounds init 1 errors
                                 ++ [Request (base_url init) (headers init)])%list
            | None =>
                exists e3,
                  List.length errors = 2%nat
                  /\ trace w' = (trace w ++ failed_rounds init 1 errors
                                   ++ failed_round init 3 e3 ++ [giving_up])%list
                  /\ List.length (filter is_sleep (failed_rounds init 1 errors
                                   ++ failed_round init 3 e3 ++ [giving_up])) = 2%nat
            end).
Proof.
  split; [reflexivity|]. split; [reflexivity|]. split.
  - intros a rest w w1 e H.
    apply (attempts_raise init ltac:(cbn; lia) a rest w w1 e H).
  - intros w. rewrite get_exchange_rates_unrolled. cbv zeta.
    destruct (fst (attempt_body init w)) as [r|e1].
    { exists (Some r), (requested init w), [].
      split; [reflexivity|]. split; [cbn; lia|]. split; [cbn; lia|reflexivity]. }
    destruct (fst (attempt_body init (after_pause init 1 e1 w))) as [r|e2].
    { exists (Some r), (requested init (after_pause init 1 e1 w)), [e1].
      split; [reflexivity|]. split; [cbn; lia|]. split; [cbn; lia|].
      cbn. rewrite <- !app_assoc. reflexivity. }
    destruct (fst (attempt_body init (after_pause init 2 e2 (after_pause init 1 e1 w))))
      as [r|e3].
    { exists (Some r),
        (requested init (after_pause init 2 e2 (after_pause init 1 e1 w))), [e1; e2].
      split; [reflexivity|]. split; [cbn; lia|]. split; [cbn; lia|].
      cbn. rewrite <- !app_assoc. reflexivity. }
    exists None,
      (after_giving_up init 3 e3 (after_pause init 2 e2 (after_pause init 1 e1 w))),
      [e1; e2].
    split; [reflexivity|]. split; [cbn; lia|].
    exists e3. split; [reflexivity|]. split; [|reflexivity].
    cbn. rewrite <- !app_assoc. reflexivity.
Qed.

Lemma retry_policy_witness :
  attempts init [2] (Sample.world_serving Sample.unreachable)
  = (Ok None,
     after_giving_up init 3 (RequestException "connection refused")
       (Sample.world_serving Sample.unreachable)).
Proof.
  exact (proj1 (proj2 (proj2 retry_policy)) 2 []
               (Sample.world_serving Sample.unreachable)
               (requested init (Sample.world_serving Sample.unreachable))
               (RequestException "connection refused") eq_refl).
Defined.

(** C4. When each of the three pages served lacks the table or lacks a
    row for the code, [get_exchange_rates] returns [None] and logs
    exactly [max_retries] attempt failures and exactly one terminal
    failure. *)
Theorem missing_row_exhausts_retries (w : world) :
  (forall k, (k < 3)%nat ->
             exists resp, http w (requests_sent w + k)%nat = Responded resp
                          /\ lacks_row "USD" (document resp) = true) ->
  exists w' new,
    get_exchange_rates init w = (Ok None, w')
    /\ trace w' = (trace w ++ new)%list
    /\ List.length (filter is_attempt_failure new) = Z.to_nat (max_retries init)
    /\ List.length (filter is_attempt_failure new) = 3%nat
    /\ List.length (filter is_terminal_failure new) = 1%nat.
Proof.
  intros Hpages.
  destruct (Hpages 0%nat ltac:(lia)) as (r1 & Hr1 & Hl1).
  destruct (Hpages 1%nat ltac:(lia)) as (r2 & Hr2 & Hl2).
  destruct (Hpages 2%nat ltac:(lia)) as (r3 & Hr3 & Hl3).
  rewrite Nat.add_0_r in Hr1.
  replace (requests_sent w + 1)%nat with (S (requests_sent w)) in Hr2 by lia.
  replace (requests_sent w + 2)%nat with (S (S (requests_sent w))) in Hr3 by lia.
  rewrite get_exchange_rates_unrolled. cbv zeta.
  destruct (lacks_row_raises w r1 Hr1 Hl1) as (e1 & ->).
  destruct (lacks_row_raises (after_pause init 1 e1 w) r2 Hr2 Hl2) as (e2 & ->).
  destruct (lacks_row_raises (after_pause init 2 e2 (after_pause init 1 e1 w))
              r3 Hr3 Hl3) as (e3 & ->).
  exists (after_giving_up init 3 e3 (after_pause init 2 e2 (after_pause init 1 e1 w))),
    (failed_rounds init 1 [e1; e2] ++ failed_round init 3 e3 ++ [giving_up])%list.
  split; [reflexivity|]. split; [|repeat split].
  cbn. rewrite <- !app_assoc. reflexivity.
Qed.

Lemma missing_row_exhausts_retries_witness :
  exists w' new,
    get_exchange_rates init
      (Sample.world_serving (Sample.always Sample.page_without_usd)) = (Ok None, w')
    /\ trace w' = (trace (Sample.world_serving (Sample.always Sample.page_without_usd))
                     ++ new)%list
    /\ List.length (filter is_attempt_failure new) = Z.to_nat (max_retries init)
    /\ List.length (filter is_attempt_failure new) = 3%nat
    /\ List.length (filter is_terminal_failure new) = 1%nat.
Proof.
  apply (missing_row_exhausts_retries
           (Sample.world_serving (Sample.always Sample.page_without_usd))).
  intros k Hk. exists (mkResponse 200 Sample.page_without_usd).
  split; reflexivity.
Defined.

(** C5. Extraction is atomic.  Whatever the world, [get_exchange_rates]
    returns either [None] or a record the row-to-record mapping defines
    as a whole from one row: seven cells, five numbers and the
    published time.  A row for the code that cannot be fully parsed
    makes the attempt raise; no record comes out of it. *)
Theorem extraction_is_atomic :
  (forall w, exists w',
      get_exchange_rates init w = (Ok None, w')
      \/ exists r cells now,
          get_exchange_rates init w = (Ok (Some r), w')
          /\ row_to_record "USD" cells now = Some r)
  /\ (forall w resp table cells,
         http w (requests_sent w) = Responded resp ->
         Soup.find "table" table_signature (Soup.BeautifulSoup (document resp))
           = Some table ->
         first_row_for "USD" (Soup.find_all "tr" table) = Some cells ->
         fully_parsed cells = false ->
         exists e, attempt_body init w = (Raise e, requested init w)).
Proof.
  assert (Hone : forall w r, fst (attempt_body init w) = Ok r ->
                 exists cells now, row_to_record "USD" cells now = Some r).
  { intros w r. rewrite attempt_body_eq.
    destruct (http w (requests_sent w)) as [reason|resp]; [discriminate|].
    destruct ((400 <=? status_code resp) && (status_code resp <? 600));
      [discriminate|].
    destruct (Soup.find "table" table_signature _) as [table|]; [|discriminate].
    destruct (first_row_for "USD" _) as [cells|]; [|discriminate].
    intros H. apply make_record_ok in H. eauto. }
  split.
  - intros w. rewrite get_exchange_rates_unrolled. cbv zeta.
    repeat match goal with
      | |- context [fst (attempt_body init ?x)] =>
          let E := fresh "E" in
          destruct (fst (attempt_body init x)) as [r|?e] eqn:E;
          [destruct (Hone _ _ E) as (cells & now & Hr);
           eexists; right; exists r, cells, now; split; [reflexivity|exact Hr]|]
      end.
    eexists. left. reflexivity.
  - intros w resp table cells Hresp Htable Hrow Hbad.
    rewrite attempt_body_eq, Hresp.
    destruct ((400 <=? status_code resp) && (status_code resp <? 600)); [eauto|].
    rewrite Htable, Hrow.
    apply make_record_fails.
    apply not_fully_parsed_no_record. exact Hbad.
Qed.

Lemma extraction_is_atomic_witness :
  exists e,
    attempt_body init (Sample.world_serving (Sample.always Sample.page_short_row))
    = (Raise e,
       requested init (Sample.world_serving (Sample.always Sample.page_short_row))).
Proof.
  exact (proj2 extraction_is_atomic
            (Sample.world_serving (Sample.always Sample.page_short_row))
            (mkResponse 200 Sample.page_short_row)
            (Sample.rates_table
               [Sample.header_row; Sample.tr Sample.short_cells;
                Sample.tr Sample.usd_cells])
            Sample.short_cells eq_refl eq_refl eq_refl eq_refl).
Defined.

(** C6. A rate cell whose trimmed text is empty is read as zero: the
    cell does not make the row fail, the rate is [0.0 / 100 = 0.0], and
    it is written as [0.0000]. *)
Theorem empty_rate_cell_is_zero
  (cells : list Soup.node) (i : nat) (c : Soup.node) (w : world) :
  (1 <= i <= 5)%nat ->
  nth_error cells i = Some c ->
  PyStr.strip (Soup.text c) = EmptyString ->
  rate_of cells i w = (Ok (S754_zero false), w)
  /\ PyFloat.format_4f (S754_zero false) = "0.0000"
  /\ forall r, make_record cells w = (Ok r, w) ->
               nth_error (rates r) (i - 1) = Some (S754_zero false).
Proof.
  intros Hi Hc Hempty.
  assert (Hv : cell_value c = Some (S754_zero false)).
  { unfold cell_value. rewrite Hempty. reflexivity. }
  split; [|split].
  - rewrite rate_of_eq, Hc, Hv. reflexivity.
  - reflexivity.
  - intros r Hr.
    assert (H : fst (make_record cells w) = Ok r) by (rewrite Hr; reflexivity).
    apply make_record_ok in H. unfold row_to_record in H.
    destruct cells as [|c0 [|c1 [|c2 [|c3 [|c4 [|c5 [|c6 rest]]]]]]];
      try discriminate.
    destruct (cell_value c1) as [v1|] eqn:E1; [|discriminate].
    destruct (cell_value c2) as [v2|] eqn:E2; [|discriminate].
    destruct (cell_value c3) as [v3|] eqn:E3; [|discriminate].
    destruct (cell_value c4) as [v4|] eqn:E4; [|discriminate].
    destruct (cell_value c5) as [v5|] eqn:E5; [|discriminate].
    injection H as <-.
    assert (Hcases : (i = 1 \/ i = 2 \/ i = 3 \/ i = 4 \/ i = 5)%nat) by lia.
    destruct Hcases as [->|[->|[->|[->| ->]]]];
      cbn [nth_error] in Hc; injection Hc as ->;
      match goal with
      | E : cell_value c = Some ?v |- _ =>
          is_var v; rewrite Hv in E; injection E as <-
      end; reflexivity.
Qed.

Lemma empty_rate_cell_is_zero_witness :
  rate_of Sample.blank_cells 2 (Sample.world_serving (Sample.always Sample.page))
    = (Ok (S754_zero false), Sample.world_serving (Sample.always Sample.page))
  /\ PyFloat.format_4f (S754_zero false) = "0.0000"
  /\ forall r,
      make_record Sample.blank_cells (Sample.world_serving (Sample.always Sample.page))
        = (Ok r, Sample.world_serving (Sample.always Sample.page)) ->
      nth_error (rates r) 1 = Some (S754_zero false).
Proof.
  refine (empty_rate_cell_is_zero Sample.blank_cells 2 (Sample.td "  ")
            (Sample.world_serving (Sample.always Sample.page)) _ eq_refl eq_refl).
  lia.
Defined.

(** C7. The header is written once.  A call of [save_to_csv] that
    succeeds writes the header exactly when the output file did not
    exist, and then the data row; so N >= 1 calls, starting without the
    file, leave one header row followed by the N data rows in call
    order.  No data row reads like the header row. *)
Theorem header_written_once :
  (forall r w w',
      save_to_csv init (Some r) w = (Ok tt, w') ->
      match at_output_file (fs w) with
      | Some (File c) => at_output_file (fs w') = Some (File (c ++ data_line r))
      | _ => at_output_file (fs w') = Some (File (header_line ++ data_line r))
      end)
  /\ (forall rs w,
         rs <> [] ->
         at_output_file (fs w) = None ->
         (forall c, at_data_dir (fs w) <> Some (File c)) ->
         exists w',
           save_each init rs w = (Ok tt, w')
           /\ at_output_file (fs w')
              = Some (File (header_line ++ lines_text (map data_line rs))))
  /\ (forall r, data_line r <> header_line).
Proof.
  split; [|split; [|exact data_line_not_header]].
  - intros r w w'. rewrite save_to_csv_eq.
    destruct (at_data_dir (fs w)) as [[|dc]|], (at_output_file (fs w)) as [[|c]|];
      intros H; try discriminate; injection H as <-; reflexivity.
  - assert (Hmore : forall rs w c,
               at_data_dir (fs w) = Some Dir ->
               at_output_file (fs w) = Some (File c) ->
               exists w',
                 save_each init rs w = (Ok tt, w')
                 /\ at_output_file (fs w')
                    = Some (File (c ++ lines_text (map data_line rs)))).
    { induction rs as [|r rs IH]; intros w c Hd Ho.
      - exists w. split; [reflexivity|].
        rewrite Ho. cbn [map lines_text].
        rewrite append_nil_r. reflexivity.
      - cbn [save_each]. unfold bind. rewrite save_to_csv_eq, Hd, Ho.
        match goal with
        | |- context [save_each init rs ?x] =>
            destruct (IH x (c ++ data_line r) eq_refl eq_refl) as (w' & Hrun & Hout)
        end.
        exists w'. split; [exact Hrun|].
        rewrite Hout. cbn [map lines_text].
        rewrite append_assoc. reflexivity. }
    intros [|r rs] w Hne Ho Hd; [congruence|].
    cbn [save_each]. unfold bind. rewrite save_to_csv_eq, Ho.
    destruct (at_data_dir (fs w)) as [[|dc]|]; [|exfalso; eapply Hd; reflexivity|];
      match goal with
      | |- context [save_each init rs ?x] =>
          destruct (Hmore rs x (header_line ++ data_line r) eq_refl eq_refl)
            as (w' & Hrun & Hout)
      end;
      (exists w'; split; [exact Hrun|];
       rewrite Hout; cbn [map lines_text];
       rewrite append_assoc; reflexivity).
Qed.

Lemma header_written_once_witness :
  at_output_file
    (fs (snd (save_to_csv init (Some Sample.record_1)
                (Sample.world_serving Sample.unreachable))))
  = Some (File (header_line ++ data_line Sample.record_1))
  /\ exists w',
      save_each init [Sample.record_1; Sample.record_2]
        (Sample.world_serving Sample.unreachable) = (Ok tt, w')
      /\ at_output_file (fs w')
         = Some (File (header_line
                         ++ lines_text (map data_line
                                            [Sample.record_1; Sample.record_2]))).
Proof.
  split.
  - exact (proj1 header_written_once Sample.record_1
                 (Sample.world_serving Sample.unreachable)
                 (snd (save_to_csv init (Some Sample.record_1)
                         (Sample.world_serving Sample.unreachable)))
                 eq_refl).
  - apply (proj1 (proj2 header_written_once));
      [discriminate|reflexivity|discriminate].
Defined.

(** C8. The program at a page whose row for the code holds [inf] as its
    buying rate.  [float] accepts the text, so the fetch returns a
    record whose buying rate is infinite; the row written for it holds
    the eight fields in the order of the interface, separated by tabs,
    but its buying rate reads [inf], which is not a decimal with four
    digits after the point, whereas the comment of line 95 promises
    four decimal places for all numeric values. *)
Theorem infinite_rate_has_no_decimals :
  fst (get_exchange_rates init
         (Sample.world_serving (Sample.always Sample.page_infinite_rate)))
    = Ok (Some Sample.infinite_record)
  /\ Csv.row_text Csv.TAB fieldnames (formatted_data Sample.infinite_record)
     = PyStr.join (String Csv.TAB EmptyString)
         ["USD"; "inf"; "675.0000"; "683.0000"; "686.0000"; "681.5000";
          "09:30:00"; "2023-11-14 22:13:20"] ++ Csv.lineterminator
  /\ is_fixed4 (PyFloat.format_4f (Buying_Rate Sample.infinite_record)) = false.
Proof.
  split; [|split]; vm_compute; reflexivity.
Qed.

(** C9. When the fetch returns [None], [run] logs the failure and ends:
    [save_to_csv] is not called, and the data directory and the output
    file are as they were.  A falsy argument makes [save_to_csv] itself
    return at once. *)
Theorem failed_fetch_writes_nothing :
  (forall w w1,
      get_exchange_rates init (started w) = (Ok None, w1) ->
      exists w2,
        run init w = (Ok tt, w2)
        /\ trace w2 = (trace w1 ++ [Log ERROR (Text "Failed to fetch exchange rate data")])%list
        /\ fs w2 = fs w
        /\ at_data_dir (fs w2) = at_data_dir (fs w)
        /\ at_output_file (fs w2) = at_output_file (fs w))
  /\ (forall self w, save_to_csv self None w = (Ok tt, w)).
Proof.
  split; [|reflexivity].
  intros w w1 H.
  pose proof (get_exchange_rates_fs (started w)) as Hfs.
  rewrite H in Hfs. cbn [snd] in Hfs.
  assert (Hfs' : fs w1 = fs w) by (rewrite Hfs; reflexivity).
  exists (snd (logging_error (Text "Failed to fetch exchange rate data") w1)).
  split; [|split; [reflexivity|]].
  - unfold run. unfold bind at 1. fold (started w).
    change (logging_info (Text "Fetching USD exchange rate from Bank of China...") w)
      with (Ok tt, started w).
    cbv iota. unfold bind. rewrite H. reflexivity.
  - cbn [snd logging_error emit fs]. rewrite Hfs'. repeat split.
Qed.

Lemma failed_fetch_writes_nothing_witness :
  exists w2,
    run init (Sample.world_serving Sample.unreachable) = (Ok tt, w2)
    /\ trace w2
       = (trace (snd (get_exchange_rates init
                        (started (Sample.world_serving Sample.unreachable))))
            ++ [Log ERROR (Text "Failed to fetch exchange rate data")])%list
    /\ fs w2 = mkFs None None
    /\ at_data_dir (fs w2) = None
    /\ at_output_file (fs w2) = None.
Proof.
  refine (proj1 failed_fetch_writes_nothing
                (Sample.world_serving Sample.unreachable)
                (snd (get_exchange_rates init
                        (started (Sample.world_serving Sample.unreachable))))
                _).
  vm_compute. reflexivity.
Defined.

(** C10. A row without [td] cells (a header row made of [th] elements,
    say) is passed over: the comparison of the first cell is not
    evaluated, no index is out of range, and the loop goes on with the
    rows that follow. *)
Theorem row_without_cells_is_skipped :
  (forall cells w, exists b, is_usd_row cells w = (Ok b, w))
  /\ (forall row rest w,
         Soup.find_all "td" row = [] ->
         is_usd_row (Soup.find_all "td" row) w = (Ok false, w)
         /\ scan_rows (row :: rest) w = scan_rows rest w).
Proof.
  split.
  - intros cells w. exists (first_cell_is "USD" cells). apply is_usd_row_eq.
  - intros row rest w Hempty. split.
    + rewrite Hempty. reflexivity.
    + cbn [scan_rows]. unfold bind. rewrite Hempty. reflexivity.
Qed.

Lemma row_without_cells_is_skipped_witness :
  is_usd_row (Soup.find_all "td" Sample.header_row)
             (Sample.world_serving (Sample.always Sample.page))
    = (Ok false, Sample.world_serving (Sample.always Sample.page))
  /\ scan_rows [Sample.header_row; Sample.tr Sample.usd_cells]
               (Sample.world_serving (Sample.always Sample.page))
     = scan_rows [Sample.tr Sample.usd_cells]
                 (Sample.world_serving (Sample.always Sample.page)).
Proof.
  exact (proj2 row_without_cells_is_skipped Sample.header_row
               [Sample.tr Sample.usd_cells]
               (Sample.world_serving (Sample.always Sample.page)) eq_refl).
Defined.

(** ** Further properties of the program *)

(** *** How an attempt fails *)

Lemma make_record_ok_iff_fully_parsed (cells : list Soup.node) (w : world) :
  (exists r, fst (make_record cells w) = Ok r) <-> fully_parsed cells = true.
Proof.
  split.
  - intros (r & Hr). apply make_record_ok in Hr.
    destruct (fully_parsed cells) eqn:Hf; [reflexivity|].
    apply (not_fully_parsed_no_record "USD" cells (clock w)) in Hf. congruence.
  - intros Hf.
    destruct (row_to_record "USD" cells (clock w)) as [r|] eqn:Hr.
    + exists r. apply make_record_ok. exact Hr.
    + apply not_fully_parsed_no_record in Hr. congruence.
Qed.

(** X1. Whether an attempt succeeds depends on the response alone: it
    succeeds exactly when the request is answered, the status is not in
    the 4xx or 5xx range, the page holds the table, the table holds a
    row for the code after its first row, and that row has seven cells
    with five numbers. *)
Theorem attempt_succeeds_iff (self : ExchangeRateParser) (w : world) :
  (exists r, fst (attempt_body self w) = Ok r)
  <-> attempt_fails_on (http w (requests_sent w)) = false.
Proof.
  rewrite attempt_body_eq. unfold attempt_fails_on.
  destruct (http w (requests_sent w)) as [reason|resp].
  { split; [intros (r & H); discriminate|discriminate]. }
  destruct ((400 <=? status_code resp) && (status_code resp <? 600)); cbn [orb].
  { split; [intros (r & H); discriminate|discriminate]. }
  destruct (Soup.find "table" table_signature _) as [table|].
  2:{ split; [intros (r & H); discriminate|discriminate]. }
  destruct (first_row_for "USD" _) as [cells|].
  2:{ split; [intros (r & H); discriminate|discriminate]. }
  rewrite make_record_ok_iff_fully_parsed.
  destruct (fully_parsed cells); cbn; split; congruence.
Qed.

(** *** The cells of the row *)

Ltac number_cells H :=
  cbn [tl firstn forallb Nat.sub] in H; unfold has_number in H;
  repeat match type of H with
    | context [cell_value ?c] =>
        let E := fresh "E" in
        destruct (cell_value c) eqn:E; cbn [andb] in H; [|discriminate H]
    end.

Ltac eval_record :=
  unfold make_record;
  repeat (rewrite bind_rate_of; cbn [nth_error];
          repeat match goal with
            | E : cell_value ?c = _ |- context [cell_value ?c] => rewrite E
            end;
          cbv iota beta);
  try reflexivity.

(** X3. The values of the record are computed in column order, and the
    first cell that fails decides the exception: a row that runs out of
    cells raises [IndexError], and a rate cell that is not a number
    raises [ValueError] with the trimmed text of the cell, when the
    cells before it are there and hold numbers. *)
Theorem malformed_row_exceptions (cells : list Soup.node) (w : world) :
  ((List.length cells < 7)%nat ->
   forallb has_number (firstn 5 (tl cells)) = true ->
   make_record cells w = (Raise IndexError, w))
  /\ (forall i c,
         (1 <= i <= 5)%nat ->
         nth_error cells i = Some c ->
         cell_value c = None ->
         forallb has_number (firstn (i - 1) (tl cells)) = true ->
         make_record cells w = (Raise (ValueError (PyStr.strip (Soup.text c))), w)).
Proof.
  split.
  - intros Hlen Hnum.
    destruct cells as [|c0 [|c1 [|c2 [|c3 [|c4 [|c5 [|c6 rest]]]]]]];
      [..|cbn [List.length] in Hlen; lia];
      number_cells Hnum; eval_record.
  - intros i c Hi Hc Hv Hnum.
    assert (Hcases : (i = 1 \/ i = 2 \/ i = 3 \/ i = 4 \/ i = 5)%nat) by lia.
    destruct Hcases as [->|[->|[->|[->| ->]]]];
      destruct cells as [|c0 [|c1 [|c2 [|c3 [|c4 [|c5 rest]]]]]];
      try discriminate Hc;
      cbn [nth_error] in Hc; injection Hc as ->;
      number_cells Hnum; eval_record.
Qed.

Lemma malformed_row_exceptions_witness :
  make_record Sample.short_cells (Sample.world_serving Sample.unreachable)
    = (Raise IndexError, Sample.world_serving Sample.unreachable)
  /\ make_record Sample.garbled_cells (Sample.world_serving Sample.unreachable)
     = (Raise (ValueError "n/a"), Sample.world_serving Sample.unreachable).
Proof.
  split.
  - refine (proj1 (malformed_row_exceptions Sample.short_cells
                     (Sample.world_serving Sample.unreachable)) _ eq_refl).
    cbn. lia.
  - refine (proj2 (malformed_row_exceptions Sample.garbled_cells
                     (Sample.world_serving Sample.unreachable))
                  2%nat (Sample.td "n/a") _ eq_refl eq_refl eq_refl).
    lia.
Defined.

Lemma find_stops_at_first {A B} (f : B -> bool) (g : A -> B)
  (before : list A) (x : A) (after : list A) :
  f (g x) = true ->
  List.find f (map g (before ++ x :: after)) = List.find f (map g (before ++ [x])).
Proof.
  intros Hx. induction before as [|b before IH]; cbn [app map List.find].
  - rewrite Hx. reflexivity.
  - destruct (f (g b)); [reflexivity|exact IH].
Qed.

(** X4. Only the first seven cells of the first row for the code are
    read: cells after the seventh change nothing, and neither do the
    rows that follow the first row for the code. *)
Theorem only_seven_cells_of_first_row_matter :
  (forall c0 c1 c2 c3 c4 c5 c6 more w,
      make_record (c0 :: c1 :: c2 :: c3 :: c4 :: c5 :: c6 :: more) w
      = make_record [c0; c1; c2; c3; c4; c5; c6] w)
  /\ (forall before row after w,
         first_cell_is "USD" (Soup.find_all "td" row) = true ->
         scan_rows (before ++ row :: after) w = scan_rows (before ++ [row]) w).
Proof.
  split.
  - intros. unfold make_record.
    repeat (rewrite !bind_rate_of; cbn [nth_error];
            match goal with
            | |- context [cell_value ?c] => destruct (cell_value c)
            end; [|reflexivity]).
    reflexivity.
  - intros before row after w Hrow.
    rewrite !scan_rows_eq.
    rewrite (find_stops_at_first _ _ before row after Hrow). reflexivity.
Qed.

Lemma only_seven_cells_of_first_row_matter_witness :
  scan_rows ([Sample.tr Sample.eur_cells]
               ++ Sample.tr Sample.usd_cells :: [Sample.tr Sample.short_cells])
            (Sample.world_serving Sample.unreachable)
  = scan_rows ([Sample.tr Sample.eur_cells] ++ [Sample.tr Sample.usd_cells])
              (Sample.world_serving Sample.unreachable).
Proof.
  exact (proj2 only_seven_cells_of_first_row_matter
               [Sample.tr Sample.eur_cells] (Sample.tr Sample.usd_cells)
               [Sample.tr Sample.short_cells]
               (Sample.world_serving Sample.unreachable) eq_refl).
Defined.

(** *** The retry loop as a whole *)

Lemma attempt_fails_on_raises (self : ExchangeRateParser) (w : world) :
  attempt_fails_on (http w (requests_sent w)) = true ->
  exists e, fst (attempt_body self w) = Raise e.
Proof.
  rewrite attempt_body_eq. unfold attempt_fails_on.
  destruct (http w (requests_sent w)) as [reason|resp];
    [intros _; eexists; reflexivity|].
  destruct ((400 <=? status_code resp) && (status_code resp <? 600));
    cbn [orb]; [intros _; eexists; reflexivity|].
  destruct (Soup.find "table" table_signature _) as [table|];
    [|intros _; eexists; reflexivity].
  destruct (first_row_for "USD" _) as [cells|];
    [|intros _; eexists; reflexivity].
  intros Hf. apply negb_true_iff in Hf.
  apply (not_fully_parsed_no_record "USD" cells (clock (requested self w))) in Hf.
  destruct (make_record_fails cells (requested self w) Hf) as (e & ->).
  eexists. reflexivity.
Qed.

Lemma attempt_ok_record (self : ExchangeRateParser) (w : world) (r : ExchangeRateRecord) :
  fst (attempt_body self w) = Ok r ->
  exists cells, row_to_record "USD" cells (clock w) = Some r.
Proof.
  rewrite attempt_body_eq.
  destruct (http w (requests_sent w)) as [reason|resp]; [discriminate|].
  destruct ((400 <=? status_code resp) && (status_code resp <? 600));
    [discriminate|].
  destruct (Soup.find "table" table_signature _) as [table|]; [|discriminate].
  destruct (first_row_for "USD" _) as [cells|]; [|discriminate].
  intros H. apply make_record_ok in H. eauto.
Qed.

(** X5. A failed first attempt is made good by the second: when the
    first request fails in any way and the second is answered with a
    page whose row for the code is well formed, [get_exchange_rates]
    returns the record of that row after one logged failure, one pause
    and a second request. *)
Theorem second_attempt_recovers
  (w : world) (resp : response) (table : Soup.node) (cells : list Soup.node) :
  attempt_fails_on (http w (requests_sent w)) = true ->
  http w (S (requests_sent w)) = Responded resp ->
  (400 <=? status_code resp) && (status_code resp <? 600) = false ->
  Soup.find "table" table_signature (Soup.BeautifulSoup (document resp)) = Some table ->
  first_row_for "USD" (Soup.find_all "tr" table) = Some cells ->
  fully_parsed cells = true ->
  exists e r now w',
    fst (attempt_body init w) = Raise e
    /\ row_to_record "USD" cells now = Some r
    /\ get_exchange_rates init w = (Ok (Some r), w')
    /\ trace w' = (trace w ++ failed_round init 1 e ++ pause init
                     ++ [Request (base_url init) (headers init)])%list
    /\ requests_sent w' = S (S (requests_sent w)).
Proof.
  intros Hfail Hresp Hstatus Htable Hrow Hfull.
  destruct (attempt_fails_on_raises init w Hfail) as (e & He).
  destruct (row_to_record "USD" cells
              (clock (requested init (after_pause init 1 e w)))) as [r|] eqn:Hrec.
  2:{ apply not_fully_parsed_no_record in Hrec. congruence. }
  exists e, r, (clock (requested init (after_pause init 1 e w))),
    (requested init (after_pause init 1 e w)).
  split; [exact He|]. split; [exact Hrec|].
  split; [|split; [|reflexivity]].
  - rewrite get_exchange_rates_unrolled, He. cbv zeta.
    rewrite attempt_body_eq. cbn [http requests_sent after_pause].
    rewrite Hresp, Hstatus, Htable, Hrow.
    rewrite (make_record_succeeds cells (requested init (after_pause init 1 e w))
               r Hrec).
    reflexivity.
  - cbn. rewrite <- !app_assoc. reflexivity.
Qed.

Lemma second_attempt_recovers_witness :
  exists e r now w',
    fst (attempt_body init (Sample.world_serving Sample.recovering)) = Raise e
    /\ row_to_record "USD" Sample.usd_cells now = Some r
    /\ get_exchange_rates init (Sample.world_serving Sample.recovering)
       = (Ok (Some r), w')
    /\ trace w' = (trace (Sample.world_serving Sample.recovering)
                     ++ failed_round init 1 e ++ pause init
                     ++ [Request (base_url init) (headers init)])%list
    /\ requests_sent w' = 2%nat.
Proof.
  refine (second_attempt_recovers
            (Sample.world_serving Sample.recovering)
            (mkResponse 200 Sample.page)
            (Sample.rates_table
               [Sample.header_row; Sample.tr Sample.eur_cells; Sample.tr Sample.usd_cells])
            Sample.usd_cells
            _ _ _ _ _ _); vm_compute; reflexivity.
Defined.

(** X6. Fetching touches nothing but the network, the log and the
    clock: the file system is as it was, every request goes to the one
    URL with the one set of headers, between one and three requests are
    sent, and the time spent sleeping is at most 10 seconds. *)
Theorem fetch_frame (w : world) :
  fs (snd (get_exchange_rates init w)) = fs w
  /\ exists new,
      trace (snd (get_exchange_rates init w)) = (trace w ++ new)%list
      /\ (forall ev, In ev new -> is_request ev = true ->
                     ev = Request (base_url init) (headers init))
      /\ requests_sent (snd (get_exchange_rates init w))
         = (requests_sent w + List.length (filter is_request new))%nat
      /\ (1 <= List.length (filter is_request new) <= 3)%nat
      /\ clock w <= clock (snd (get_exchange_rates init w)) <= clock w + 10.
Proof.
  assert (Hreq : forall new : list event,
             Forall (fun ev => is_request ev = true ->
                               ev = Request (base_url init) (headers init)) new ->
             forall ev, In ev new -> is_request ev = true ->
                        ev = Request (base_url init) (headers init)).
  { intros new H ev Hin. rewrite Forall_forall in H. exact (H ev Hin). }
  rewrite get_exchange_rates_unrolled. cbv zeta.
  destruct (fst (attempt_body init w)) as [r|e1].
  { split; [reflexivity|]. exists [Request (base_url init) (headers init)].
    split; [reflexivity|]. split.
    - apply Hreq. repeat constructor.
    - cbn. repeat split; lia. }
  destruct (fst (attempt_body init (after_pause init 1 e1 w))) as [r|e2].
  { split; [reflexivity|].
    exists (failed_round init 1 e1 ++ pause init
              ++ [Request (base_url init) (headers init)])%list.
    split; [cbn; rewrite <- !app_assoc; reflexivity|]. split.
    - apply Hreq. repeat constructor; discriminate.
    - cbn. repeat split; lia. }
  destruct (fst (attempt_body init (after_pause init 2 e2 (after_pause init 1 e1 w))))
    as [r|e3].
  { split; [reflexivity|].
    exists (failed_rounds init 1 [e1; e2]
              ++ [Request (base_url init) (headers init)])%list.
    split; [cbn; rewrite <- !app_assoc; reflexivity|]. split.
    - apply Hreq. repeat constructor; discriminate.
    - cbn. repeat split; lia. }
  split; [reflexivity|].
  exists (failed_rounds init 1 [e1; e2] ++ failed_round init 3 e3 ++ [giving_up])%list.
  split; [cbn; rewrite <- !app_assoc; reflexivity|]. split.
  - apply Hreq. repeat constructor; discriminate.
  - cbn. repeat split; lia.
Qed.

(** *** The record returned *)

Lemma rstrip_cons (c : ascii) (s : string) :
  PyStr.rstrip (String c s)
  = match PyStr.rstrip s with
    | EmptyString =>
        if PyStr.isspace c then EmptyString else String c EmptyString
    | String d t => String c (String d t)
    end.
Proof. reflexivity. Qed.

Lemma rstrip_idempotent (s : string) : PyStr.rstrip (PyStr.rstrip s) = PyStr.rstrip s.
Proof.
  induction s as [|c s IH]; [reflexivity|].
  rewrite rstrip_cons.
  destruct (PyStr.rstrip s) as [|d t] eqn:E.
  - destruct (PyStr.isspace c) eqn:Hc; [reflexivity|].
    rewrite rstrip_cons. cbn [PyStr.rstrip]. rewrite Hc. reflexivity.
  - rewrite rstrip_cons, IH. reflexivity.
Qed.

(** Stripping on the right keeps a first character that is not a
    space. *)
Lemma rstrip_head (c : ascii) (s : string) :
  PyStr.isspace c = false ->
  exists t, PyStr.rstrip (String c s) = String c t.
Proof.
  intros Hc. cbn [PyStr.rstrip].
  destruct (PyStr.rstrip s) as [|d t]; [rewrite Hc|]; eauto.
Qed.

Lemma lstrip_head (s : string) :
  PyStr.lstrip s = EmptyString
  \/ exists c t, PyStr.lstrip s = String c t /\ PyStr.isspace c = false.
Proof.
  induction s as [|c s IH]; [left; reflexivity|].
  cbn. destruct (PyStr.isspace c) eqn:Hc; [exact IH|].
  right. eauto.
Qed.

Lemma strip_idempotent (s : string) : PyStr.strip (PyStr.strip s) = PyStr.strip s.
Proof.
  unfold PyStr.strip.
  destruct (lstrip_head s) as [->|(c & t & -> & Hc)]; [reflexivity|].
  destruct (rstrip_head c t Hc) as (u & Hu).
  assert (Hl : PyStr.lstrip (PyStr.rstrip (String c t)) = PyStr.rstrip (String c t)).
  { rewrite Hu. cbn. rewrite Hc. reflexivity. }
  rewrite Hl. apply rstrip_idempotent.
Qed.

Lemma row_to_record_fields (code : string) (cells : list Soup.node) (now : Z)
  (r : ExchangeRateRecord) :
  row_to_record code cells now = Some r ->
  Currency_Name r = code
  /\ Timestamp r = Strftime.format now
  /\ exists c6, nth_error cells 6 = Some c6
                /\ Pub_Time r = PyStr.strip (Soup.text c6).
Proof.
  unfold row_to_record.
  destruct cells as [|c0 [|c1 [|c2 [|c3 [|c4 [|c5 [|c6 rest]]]]]]];
    try discriminate.
  destruct (cell_value c1), (cell_value c2), (cell_value c3), (cell_value c4),
    (cell_value c5); try discriminate.
  intros H. injection H as <-. repeat split. exists c6. split; reflexivity.
Qed.

(** X7. Every record [get_exchange_rates] returns, at whichever attempt,
    names the currency [USD], carries a published time without white
    space at either end, and is stamped with a formatted time. *)
Theorem returned_record_invariant (w w' : world) (r : ExchangeRateRecord) :
  get_exchange_rates init w = (Ok (Some r), w') ->
  Currency_Name r = "USD"
  /\ PyStr.strip (Pub_Time r) = Pub_Time r
  /\ exists now, Timestamp r = Strftime.format now.
Proof.
  rewrite get_exchange_rates_unrolled. cbv zeta.
  assert (Hrec : forall u, fst (attempt_body init u) = Ok r ->
                 Currency_Name r = "USD"
                 /\ PyStr.strip (Pub_Time r) = Pub_Time r
                 /\ exists now, Timestamp r = Strftime.format now).
  { intros u Hu. destruct (attempt_ok_record init u r Hu) as (cells & Hc).
    destruct (row_to_record_fields _ _ _ _ Hc) as (Hn & Ht & c6 & _ & Hp).
    split; [exact Hn|]. split; [|eexists; exact Ht].
    rewrite Hp. apply strip_idempotent. }
  destruct (fst (attempt_body init w)) as [r1|e1] eqn:E1.
  { intros H. injection H as -> <-. exact (Hrec w E1). }
  destruct (fst (attempt_body init (after_pause init 1 e1 w))) as [r2|e2] eqn:E2.
  { intros H. injection H as -> <-. exact (Hrec _ E2). }
  destruct (fst (attempt_body init (after_pause init 2 e2 (after_pause init 1 e1 w))))
    as [r3|e3] eqn:E3; [|discriminate].
  intros H. injection H as -> <-. exact (Hrec _ E3).
Qed.

Lemma returned_record_invariant_witness :
  Currency_Name Sample.infinite_record = "USD"
  /\ PyStr.strip (Pub_Time Sample.infinite_record) = Pub_Time Sample.infinite_record
  /\ exists now, Timestamp Sample.infinite_record = Strftime.format now.
Proof.
  refine (returned_record_invariant
            (Sample.world_serving (Sample.always Sample.page_infinite_rate))
            (snd (get_exchange_rates init
                    (Sample.world_serving (Sample.always Sample.page_infinite_rate))))
            Sample.infinite_record _).
  vm_compute. reflexivity.
Defined.

(** *** Any retry bound *)

Lemma count_app {A} (f : A -> bool) (l1 l2 : list A) :
  List.length (filter f (l1 ++ l2))
  = (List.length (filter f l1) + List.length (filter f l2))%nat.
Proof. rewrite filter_app, length_app. reflexivity. Qed.

(** The loop over the attempts [k, k+1, ..., k+m-1] when each of them
    fails and [k+m] is the retry bound. *)
Lemma attempts_all_fail (self : ExchangeRateParser) :
  0 <= retry_delay self ->
  forall m k w,
    max_retries self = Z.of_nat (k + m) ->
    (forall j, (j < m)%nat ->
               attempt_fails_on (http w (requests_sent w + j)%nat) = true) ->
    exists w' new,
      attempts self (map Z.of_nat (seq k m)) w = (Ok None, w')
      /\ trace w' = (trace w ++ new)%list
      /\ fs w' = fs w
      /\ requests_sent w' = (requests_sent w + m)%nat
      /\ List.length (filter is_request new) = m
      /\ List.length (filter is_attempt_failure new) = m
      /\ List.length (filter is_sleep new) = (m - 1)%nat
      /\ List.length (filter is_terminal_failure new) = (if (m =? 0)%nat then 0 else 1)%nat
      /\ clock w' = clock w + Z.of_nat (m - 1) * retry_delay self.
Proof.
  intros Hdelay. induction m as [|m IH]; intros k w Hmax Hfail.
  - exists w, []. cbn. rewrite app_nil_r, Nat.add_0_r.
    repeat split; try reflexivity. lia.
  - cbn [seq map].
    assert (H0 : attempt_fails_on (http w (requests_sent w)) = true).
    { specialize (Hfail 0%nat ltac:(lia)). rewrite Nat.add_0_r in Hfail. exact Hfail. }
    destruct (attempt_fails_on_raises self w H0) as (e & He).
    destruct (attempt_body self w) as [x w1] eqn:Hbody. cbn [fst] in He. subst x.
    rewrite (attempts_raise self Hdelay (Z.of_nat k) _ w w1 e Hbody).
    destruct m as [|m'].
    + replace (Z.of_nat k <? max_retries self - 1) with false
        by (symmetry; apply Z.ltb_ge; lia).
      exists (after_giving_up self (Z.of_nat k + 1) e w),
        (failed_round self (Z.of_nat k + 1) e ++ [giving_up])%list.
      cbn. repeat split; try reflexivity; lia.
    + replace (Z.of_nat k <? max_retries self - 1) with true
        by (symmetry; apply Z.ltb_lt; lia).
      destruct (IH (S k) (after_pause self (Z.of_nat k + 1) e w))
        as (w' & new & Hrun & Htrace & Hfs & Hsent & Hreq & Herr & Hsleep & Hterm & Hclock).
      { rewrite Hmax. f_equal. lia. }
      { intros j Hj. cbn [http requests_sent after_pause].
        replace (S (requests_sent w) + j)%nat with (requests_sent w + S j)%nat by lia.
        apply Hfail. lia. }
      exists w',
        (failed_round self (Z.of_nat k + 1) e ++ pause self ++ new)%list.
      split; [exact Hrun|].
      split; [rewrite Htrace; cbn; rewrite <- !app_assoc; reflexivity|].
      split; [rewrite Hfs; reflexivity|].
      split; [rewrite Hsent; cbn; lia|].
      rewrite !count_app, Hreq, Herr, Hsleep, Hterm, Hclock.
      cbn [failed_round pause filter is_request is_attempt_failure is_sleep
             is_terminal_failure List.length after_pause clock].
      repeat split; try lia.
      replace (Z.of_nat (S (S m') - 1)) with (Z.of_nat (S m' - 1) + 1) by lia.
      ring.
Qed.

(** X8. The retry loop for any bound.  With [max_retries = n] and a
    delay that is not negative, when each of the [n] requests fails,
    [get_exchange_rates] returns [None] after exactly [n] requests, [n]
    logged failures and [n - 1] pauses, and logs that it gives up once
    (not at all when [n = 0], where nothing is attempted). *)
Theorem retries_for_any_bound (self : ExchangeRateParser) (w : world) (n : nat) :
  max_retries self = Z.of_nat n ->
  0 <= retry_delay self ->
  (forall k, (k < n)%nat ->
             attempt_fails_on (http w (requests_sent w + k)%nat) = true) ->
  exists w' new,
    get_exchange_rates self w = (Ok None, w')
    /\ trace w' = (trace w ++ new)%list
    /\ fs w' = fs w
    /\ requests_sent w' = (requests_sent w + n)%nat
    /\ List.length (filter is_request new) = n
    /\ List.length (filter is_attempt_failure new) = n
    /\ List.length (filter is_sleep new) = (n - 1)%nat
    /\ List.length (filter is_terminal_failure new) = (if (n =? 0)%nat then 0 else 1)%nat
    /\ clock w' = clock w + Z.of_nat (n - 1) * retry_delay self.
Proof.
  intros Hmax Hdelay Hfail.
  unfold get_exchange_rates, range. rewrite Hmax, Nat2Z.id.
  apply (attempts_all_fail self Hdelay n 0%nat w); [exact Hmax|exact Hfail].
Qed.

Lemma retries_for_any_bound_witness :
  exists w' new,
    get_exchange_rates
      (mkParser (base_url init) (headers init) (data_dir init) 5 2 (output_file init))
      (Sample.world_serving Sample.unreachable) = (Ok None, w')
    /\ trace w' = (trace (Sample.world_serving Sample.unreachable) ++ new)%list
    /\ fs w' = fs (Sample.world_serving Sample.unreachable)
    /\ requests_sent w' = (0 + 5)%nat
    /\ List.length (filter is_request new) = 5%nat
    /\ List.length (filter is_attempt_failure new) = 5%nat
    /\ List.length (filter is_sleep new) = 4%nat
    /\ List.length (filter is_terminal_failure new) = 1%nat
    /\ clock w' = 1700000000 + 4 * 2.
Proof.
  refine (retries_for_any_bound
            (mkParser (base_url init) (headers init) (data_dir init) 5 2
                      (output_file init))
            (Sample.world_serving Sample.unreachable) 5 eq_refl _ _).
  - cbn. lia.
  - intros k Hk. reflexivity.
Defined.

(** X9. The handler is not itself protected: with a negative delay and
    at least two attempts allowed, the first failed attempt makes
    [time.sleep] raise [ValueError], and that exception leaves
    [get_exchange_rates] after one request. *)
Theorem negative_delay_escapes (self : ExchangeRateParser) (w : world) :
  2 <= max_retries self ->
  retry_delay self < 0 ->
  attempt_fails_on (http w (requests_sent w)) = true ->
  exists e w',
    get_exchange_rates self w
      = (Raise (ValueError "sleep length must be non-negative"), w')
    /\ trace w' = (trace w ++ failed_round self 1 e
                     ++ [Log INFO (RetryingIn (retry_delay self))])%list
    /\ requests_sent w' = S (requests_sent w).
Proof.
  intros Hmax Hdelay Hfail.
  destruct (attempt_fails_on_raises self w Hfail) as (e & He).
  pose proof (attempt_body_world self w) as Hw.
  destruct (attempt_body self w) as [x w1] eqn:Hbody. cbn in He, Hw. subst x w1.
  exists e.
  unfold get_exchange_rates, range.
  destruct (Z.to_nat (max_retries self)) as [|n] eqn:Hn; [lia|].
  cbn [seq map attempts]. unfold try_except at 1. unfold bind at 1. rewrite Hbody.
  unfold bind at 1. unfold logging_error at 1, emit.
  replace (Z.of_nat 0 <? max_retries self - 1) with true
    by (symmetry; apply Z.ltb_lt; lia).
  unfold bind at 1, logging_info at 1, emit.
  unfold bind at 1, time_sleep at 1.
  replace (retry_delay self <? 0) with true by (symmetry; apply Z.ltb_lt; lia).
  eexists. split; [reflexivity|].
  cbn. rewrite <- !app_assoc. split; reflexivity.
Qed.

Lemma negative_delay_escapes_witness :
  exists e w',
    get_exchange_rates
      (mkParser (base_url init) (headers init) (data_dir init) 3 (-1) (output_file init))
      (Sample.world_serving Sample.unreachable)
      = (Raise (ValueError "sleep length must be non-negative"), w')
    /\ trace w'
       = (trace (Sample.world_serving Sample.unreachable)
            ++ failed_round
                 (mkParser (base_url init) (headers init) (data_dir init) 3 (-1)
                           (output_file init)) 1 e
            ++ [Log INFO (RetryingIn (-1))])%list
    /\ requests_sent w' = 1%nat.
Proof.
  refine (negative_delay_escapes
            (mkParser (base_url init) (headers init) (data_dir init) 3 (-1)
                      (output_file init))
            (Sample.world_serving Sample.unreachable) _ _ eq_refl); cbn; lia.
Defined.

(** *** Writing and the run *)

(** X10. Two ways [save_to_csv] fails before it writes.  When the data
    path is a regular file, [os.makedirs] raises [FileExistsError] and
    nothing has changed.  When the output path is a directory, [open]
    raises [IsADirectoryError] after the data directory has been made:
    no row is written and nothing is logged. *)
Theorem save_to_csv_outcomes (r : ExchangeRateRecord) (w : world) :
  ((exists c, at_data_dir (fs w) = Some (File c)) ->
   save_to_csv init (Some r) w = (Raise (FileExistsError "data"), w))
  /\ ((forall c, at_data_dir (fs w) <> Some (File c)) ->
      at_output_file (fs w) = Some Dir ->
      exists w',
        save_to_csv init (Some r) w
          = (Raise (IsADirectoryError "data/exchange_rates.csv"), w')
        /\ fs w' = mkFs (Some Dir) (Some Dir)
        /\ trace w' = trace w).
Proof.
  rewrite save_to_csv_eq.
  destruct (at_data_dir (fs w)) as [[|dc]|], (at_output_file (fs w)) as [[|c]|];
    split;
    try (intros (c0 & H); discriminate H);
    try (intros _ H; discriminate H);
    try (intros H; exfalso; eapply H; reflexivity);
    try reflexivity;
    try (intros _ _; eexists; repeat split; reflexivity).
Qed.

Lemma save_to_csv_outcomes_witness :
  save_to_csv init (Some Sample.record_1)
    (mkWorld Sample.unreachable 0 1700000000 (mkFs (Some (File "x")) None) [])
  = (Raise (FileExistsError "data"),
     mkWorld Sample.unreachable 0 1700000000 (mkFs (Some (File "x")) None) [])
  /\ exists w',
      save_to_csv init (Some Sample.record_1)
        (mkWorld Sample.unreachable 0 1700000000 (mkFs None (Some Dir)) [])
      = (Raise (IsADirectoryError "data/exchange_rates.csv"), w')
      /\ fs w' = mkFs (Some Dir) (Some Dir)
      /\ trace w' = [].
Proof.
  split.
  - refine (proj1 (save_to_csv_outcomes Sample.record_1
              (mkWorld Sample.unreachable 0 1700000000 (mkFs (Some (File "x")) None) []))
              _).
    exists "x". reflexivity.
  - refine (proj2 (save_to_csv_outcomes Sample.record_1
              (mkWorld Sample.unreachable 0 1700000000 (mkFs None (Some Dir)) []))
              _ eq_refl).
    discriminate.
Defined.

(** [run], by the result of the fetch. *)
Lemma run_eq (w : world) :
  run init w =
  match get_exchange_rates init (started w) with
  | (Ok (Some r), w1) =>
      save_to_csv init (Some r)
        (snd (logging_info (MiddleRateIs (Middle_Rate r)) w1))
  | (Ok None, w1) =>
      (Ok tt, snd (logging_error (Text "Failed to fetch exchange rate data") w1))
  | (Raise e, w1) => (Raise e, w1)
  end.
Proof.
  unfold run. unfold bind at 1. fold (started w).
  change (logging_info (Text "Fetching USD exchange rate from Bank of China...") w)
    with (Ok tt, started w).
  cbv iota. unfold bind at 1.
  destruct (get_exchange_rates init (started w)) as [[[r|]|e] w1]; reflexivity.
Qed.

Lemma get_exchange_rates_returns (w : world) :
  exists res, fst (get_exchange_rates init w) = Ok res.
Proof.
  rewrite get_exchange_rates_unrolled. cbv zeta.
  repeat match goal with
    | |- context [fst (attempt_body init ?x)] =>
        destruct (fst (attempt_body init x)); [eexists; reflexivity|]
    end.
  eexists. reflexivity.
Qed.

(** X11. When the fetch returns a record and the two paths can be used,
    [run] logs the middle rate, appends exactly one data row for that
    record (after the header when the file is new), logs that it saved,
    and returns. *)
Theorem run_appends_one_row (w w1 : world) (r : ExchangeRateRecord) :
  get_exchange_rates init (started w) = (Ok (Some r), w1) ->
  (forall c, at_data_dir (fs w) <> Some (File c)) ->
  at_output_file (fs w) <> Some Dir ->
  exists w2,
    run init w = (Ok tt, w2)
    /\ at_data_dir (fs w2) = Some Dir
    /\ at_output_file (fs w2)
       = Some (File (match at_output_file (fs w) with
                     | Some (File c) => c
                     | _ => header_line
                     end ++ data_line r))
    /\ trace w2 = (trace w1 ++ [Log INFO (MiddleRateIs (Middle_Rate r));
                                Log INFO (SavedTo "data/exchange_rates.csv")])%list.
Proof.
  intros Hfetch Hdir Hout.
  pose proof (get_exchange_rates_fs (started w)) as Hfs.
  rewrite Hfetch in Hfs. cbn [snd] in Hfs.
  assert (Hfs' : fs w1 = fs w) by (rewrite Hfs; reflexivity).
  rewrite run_eq, Hfetch, save_to_csv_eq.
  cbn [snd logging_info emit fs trace http requests_sent clock]. rewrite Hfs'.
  destruct (at_data_dir (fs w)) as [[|dc]|], (at_output_file (fs w)) as [[|c]|];
    try (exfalso; apply Hout; reflexivity);
    try (exfalso; eapply Hdir; reflexivity);
    eexists; (split; [reflexivity|]); cbn; rewrite <- ?app_assoc; repeat split.
Qed.

Lemma run_appends_one_row_witness :
  exists w2,
    run init (Sample.world_serving (Sample.always Sample.page_infinite_rate))
      = (Ok tt, w2)
    /\ at_data_dir (fs w2) = Some Dir
    /\ at_output_file (fs w2)
       = Some (File (header_line ++ data_line Sample.infinite_record))
    /\ trace w2
       = (trace (snd (get_exchange_rates init
                        (started (Sample.world_serving
                                    (Sample.always Sample.page_infinite_rate)))))
            ++ [Log INFO (MiddleRateIs (Middle_Rate Sample.infinite_record));
                Log INFO (SavedTo "data/exchange_rates.csv")])%list.
Proof.
  refine (run_appends_one_row
            (Sample.world_serving (Sample.always Sample.page_infinite_rate))
            (snd (get_exchange_rates init
                    (started (Sample.world_serving
                                (Sample.always Sample.page_infinite_rate)))))
            Sample.infinite_record _ _ _);
    [vm_compute; reflexivity|discriminate|discriminate].
Defined.

(** X12. What a return of [run] means.  When [run] returns, either the
    fetch had returned [None] and the file system is as it was, or the
    fetch had returned a record and the output file holds what it held
    (the header, when it was not there) followed by exactly the one
    data row of that record. *)
Theorem run_outcomes (w w' : world) :
  run init w = (Ok tt, w') ->
  (exists w1,
      get_exchange_rates init (started w) = (Ok None, w1)
      /\ fs w' = fs w
      /\ trace w' = (trace w1 ++ [Log ERROR (Text "Failed to fetch exchange rate data")])%list)
  \/ (exists r w1,
         get_exchange_rates init (started w) = (Ok (Some r), w1)
         /\ at_data_dir (fs w') = Some Dir
         /\ at_output_file (fs w')
            = Some (File (match at_output_file (fs w) with
                          | Some (File c) => c
                          | _ => header_line
                          end ++ data_line r))
         /\ trace w' = (trace w1 ++ [Log INFO (MiddleRateIs (Middle_Rate r));
                                     Log INFO (SavedTo "data/exchange_rates.csv")])%list).
Proof.
  pose proof (get_exchange_rates_fs (started w)) as Hfs.
  rewrite run_eq.
  destruct (get_exchange_rates init (started w)) as [[[r|]|e] w1];
    cbn [fst snd] in Hfs; [| |discriminate].
  - assert (Hfs' : fs w1 = fs w) by (rewrite Hfs; reflexivity).
    rewrite save_to_csv_eq.
    cbn [snd logging_info emit fs trace http requests_sent clock]. rewrite Hfs'.
    destruct (at_data_dir (fs w)) as [[|dc]|], (at_output_file (fs w)) as [[|c]|];
      try discriminate;
      intros H; injection H as <-; right; exists r, w1;
      (split; [reflexivity|]); cbn; rewrite <- ?app_assoc; repeat split.
  - intros H. injection H as <-. left. exists w1.
    split; [reflexivity|]. split; [exact Hfs|reflexivity].
Qed.

Lemma run_outcomes_witness :
  (exists w1,
      get_exchange_rates init (started (Sample.world_serving Sample.unreachable))
        = (Ok None, w1)
      /\ fs (snd (run init (Sample.world_serving Sample.unreachable)))
         = fs (Sample.world_serving Sample.unreachable)
      /\ trace (snd (run init (Sample.world_serving Sample.unreachable)))
         = (trace w1 ++ [Log ERROR (Text "Failed to fetch exchange rate data")])%list)
  \/ (exists r w1,
         get_exchange_rates init (started (Sample.world_serving Sample.unreachable))
           = (Ok (Some r), w1)
         /\ at_data_dir (fs (snd (run init (Sample.world_serving Sample.unreachable))))
            = Some Dir
         /\ at_output_file (fs (snd (run init (Sample.world_serving Sample.unreachable))))
            = Some (File (match at_output_file
                                  (fs (Sample.world_serving Sample.unreachable)) with
                          | Some (File c) => c
                          | _ => header_line
                          end ++ data_line r))
         /\ trace (snd (run init (Sample.world_serving Sample.unreachable)))
            = (trace w1 ++ [Log INFO (MiddleRateIs (Middle_Rate r));
                            Log INFO (SavedTo "data/exchange_rates.csv")])%list).
Proof.
  refine (run_outcomes (Sample.world_serving Sample.unreachable)
            (snd (run init (Sample.world_serving Sample.unreachable))) _).
  vm_compute. reflexivity.
Defined.

(** *** Reading a row back *)

Lemma needs_quotes_cons (c : ascii) (f : string) :
  Csv.needs_quotes Csv.TAB (String c f) = false ->
  Ascii.eqb Csv.TAB c = false /\ Ascii.eqb Csv.QUOTE c = false
  /\ CsvReader.ends_row c = false
  /\ Csv.needs_quotes Csv.TAB f = false.
Proof.
  unfold Csv.needs_quotes, CsvReader.ends_row. cbn [PyStr.contains].
  intros H.
  apply orb_false_iff in H as [H Hlf]. apply orb_false_iff in H as [H Hcr].
  apply orb_false_iff in H as [Ht Hq].
  apply orb_false_iff in Hlf as [Hlf Hlf']. apply orb_false_iff in Hcr as [Hcr Hcr'].
  apply orb_false_iff in Ht as [Ht Ht']. apply orb_false_iff in Hq as [Hq Hq'].
  rewrite Ht, Hq, Hcr, Hlf, Ht', Hq', Hcr', Hlf'. repeat split.
Qed.

(** Inside a field without quotes. *)
Lemma read_plain (f : string) :
  Csv.needs_quotes Csv.TAB f = false ->
  forall cur done rest,
    CsvReader.read Csv.TAB CsvReader.InField cur done (f ++ rest)
    = CsvReader.read Csv.TAB CsvReader.InField (cur ++ f) done rest.
Proof.
  induction f as [|c f IH]; intros Hf cur done rest.
  - rewrite append_nil_r. reflexivity.
  - destruct (needs_quotes_cons c f Hf) as (Ht & Hq & He & Hf').
    cbn [append CsvReader.read]. rewrite Ht, He.
    rewrite (IH Hf'), append_assoc. reflexivity.
Qed.

(** Inside a quoted field, up to its closing quote. *)
Lemma read_quoted (f : string) :
  forall cur done rest,
    CsvReader.read Csv.TAB CsvReader.InQuotes cur done
      (Csv.double_quotes f ++ String Csv.QUOTE rest)
    = CsvReader.read Csv.TAB CsvReader.AfterQuote (cur ++ f) done rest.
Proof.
  induction f as [|c f IH]; intros cur done rest.
  - rewrite append_nil_r. reflexivity.
  - cbn [Csv.double_quotes].
    destruct (Ascii.eqb_spec c Csv.QUOTE) as [->|Hc].
    + cbn [append CsvReader.read].
      change (Ascii.eqb Csv.QUOTE Csv.QUOTE) with true. cbv iota.
      rewrite IH, append_assoc. reflexivity.
    + cbn [append CsvReader.read].
      replace (Ascii.eqb Csv.QUOTE c) with false
        by (symmetry; apply Ascii.eqb_neq; congruence).
      rewrite IH, append_assoc. reflexivity.
Qed.

(** A written field followed by the delimiter, or by the line
    terminator. *)
Lemma read_field_then_tab (f : string) (done : list string) (rest : string) :
  CsvReader.read Csv.TAB CsvReader.AtStart EmptyString done
    (Csv.write_field Csv.TAB f ++ String Csv.TAB rest)
  = CsvReader.read Csv.TAB CsvReader.AtStart EmptyString (done ++ [f]) rest.
Proof.
  unfold Csv.write_field.
  destruct (Csv.needs_quotes Csv.TAB f) eqn:Hq.
  - unfold Csv.quoted. cbn [append CsvReader.read].
    change (Ascii.eqb Csv.QUOTE Csv.QUOTE) with true. cbv iota.
    rewrite append_assoc. cbn [append].
    rewrite read_quoted. reflexivity.
  - destruct f as [|c f]; [reflexivity|].
    destruct (needs_quotes_cons c f Hq) as (Ht & Hc & He & Hf).
    cbn [append CsvReader.read]. rewrite Hc, Ht, He.
    rewrite (read_plain f Hf). reflexivity.
Qed.

Lemma read_field_then_end (f : string) (done : list string) :
  CsvReader.read Csv.TAB CsvReader.AtStart EmptyString done
    (Csv.write_field Csv.TAB f ++ Csv.lineterminator)
  = (done ++ [f])%list.
Proof.
  unfold Csv.write_field, Csv.lineterminator.
  destruct (Csv.needs_quotes Csv.TAB f) eqn:Hq.
  - unfold Csv.quoted. cbn [append CsvReader.read].
    change (Ascii.eqb Csv.QUOTE Csv.QUOTE) with true. cbv iota.
    rewrite append_assoc. cbn [append].
    rewrite read_quoted. reflexivity.
  - destruct f as [|c f]; [reflexivity|].
    destruct (needs_quotes_cons c f Hq) as (Ht & Hc & He & Hf).
    cbn [append CsvReader.read]. rewrite Hc, Ht, He.
    rewrite (read_plain f Hf). reflexivity.
Qed.

Lemma read_joined (fields : list string) :
  fields <> [] ->
  forall done,
    CsvReader.read Csv.TAB CsvReader.AtStart EmptyString done
      (PyStr.join (String Csv.TAB EmptyString) (map (Csv.write_field Csv.TAB) fields)
         ++ Csv.lineterminator)
    = (done ++ fields)%list.
Proof.
  induction fields as [|f fields IH]; [congruence|]. intros _ done.
  destruct fields as [|g fields].
  - cbn [map PyStr.join]. apply read_field_then_end.
  - change (PyStr.join (String Csv.TAB EmptyString)
              (map (Csv.write_field Csv.TAB) (f :: g :: fields)))
      with (Csv.write_field Csv.TAB f
              ++ String Csv.TAB EmptyString
              ++ PyStr.join (String Csv.TAB EmptyString)
                   (map (Csv.write_field Csv.TAB) (g :: fields))).
    rewrite !append_assoc. cbn [append].
    rewrite read_field_then_tab, IH by discriminate.
    rewrite <- app_assoc. reflexivity.
Qed.

(** Reading back a written row gives its fields. *)
Lemma read_row_writerow (fields : list string) :
  fields <> [] ->
  CsvReader.read_row Csv.TAB (Csv.writerow Csv.TAB fields) = fields.
Proof.
  intros Hne. unfold CsvReader.read_row.
  destruct fields as [|f [|g fields]]; [congruence| |].
  - destruct f as [|c f]; [reflexivity|].
    unfold Csv.writerow.
    apply (read_joined [String c f]). discriminate.
  - assert (Hrow : Csv.writerow Csv.TAB (f :: g :: fields)
                   = PyStr.join (String Csv.TAB EmptyString)
                       (map (Csv.write_field Csv.TAB) (f :: g :: fields))
                       ++ Csv.lineterminator)
      by (destruct f; reflexivity).
    rewrite Hrow. apply (read_joined (f :: g :: fields)). discriminate.
Qed.

(** X13. The writer loses nothing: two rows of fields that are written
    as the same text are the same fields.  A tab, a quote or a line
    break inside a published time cannot make two records look alike
    in the file. *)
Theorem written_row_determines_fields :
  (forall fields fields',
      fields <> [] -> fields' <> [] ->
      Csv.writerow Csv.TAB fields = Csv.writerow Csv.TAB fields' ->
      fields = fields')
  /\ (forall r r',
         Csv.row_text Csv.TAB fieldnames (formatted_data r)
         = Csv.row_text Csv.TAB fieldnames (formatted_data r') ->
         Currency_Name r = Currency_Name r'
         /\ PyFloat.format_4f (Buying_Rate r) = PyFloat.format_4f (Buying_Rate r')
         /\ PyFloat.format_4f (Cash_Buying_Rate r)
            = PyFloat.format_4f (Cash_Buying_Rate r')
         /\ PyFloat.format_4f (Selling_Rate r) = PyFloat.format_4f (Selling_Rate r')
         /\ PyFloat.format_4f (Cash_Selling_Rate r)
            = PyFloat.format_4f (Cash_Selling_Rate r')
         /\ PyFloat.format_4f (Middle_Rate r) = PyFloat.format_4f (Middle_Rate r')
         /\ Pub_Time r = Pub_Time r'
         /\ Timestamp r = Timestamp r').
Proof.
  assert (Hinj : forall fields fields',
             fields <> [] -> fields' <> [] ->
             Csv.writerow Csv.TAB fields = Csv.writerow Csv.TAB fields' ->
             fields = fields').
  { intros fields fields' Hne Hne' Heq.
    rewrite <- (read_row_writerow fields Hne), <- (read_row_writerow fields' Hne').
    rewrite Heq. reflexivity. }
  split; [exact Hinj|].
  intros r r' Heq. unfold Csv.row_text in Heq.
  rewrite !dict_to_list_formatted in Heq.
  apply Hinj in Heq; [|discriminate|discriminate].
  unfold data_fields in Heq. injection Heq as H1 H2 H3 H4 H5 H6 H7 H8.
  repeat split; assumption.
Qed.

Lemma written_row_determines_fields_witness :
  ["a"; String Csv.TAB "b"] = ["a"; String Csv.TAB "b"].
Proof.
  refine (proj1 written_row_determines_fields
            ["a"; String Csv.TAB "b"] ["a"; String Csv.TAB "b"] _ _ eq_refl);
    discriminate.
Defined.

(** *** The value written for a rate *)

Lemma div_half_even_nearest (a d : N) :
  d <> 0%N ->
  (2 * PyFloat.div_half_even a d * d <= 2 * a + d
   /\ 2 * a <= 2 * PyFloat.div_half_even a d * d + d)%N.
Proof.
  intros Hd. unfold PyFloat.div_half_even.
  pose proof (N.div_mod a d Hd) as Hdm.
  pose proof (N.mod_lt a d Hd) as Hlt.
  set (q := (a / d)%N) in *. set (r := (a mod d)%N) in *.
  destruct (N.ltb_spec (2 * r) d); [nia|].
  destruct (N.eqb_spec (2 * r) d); [destruct (N.even q); nia|nia].
Qed.

Lemma digits_val_zero_padded_4 (n : N) :
  (n < 10000)%N -> PyStr.digits_val (PyStr.zero_padded 4 n) = n.
Proof.
  intros Hn. rewrite zero_padded_4. unfold PyStr.digits_val.
  cbn [PyStr.digits_val_from]. rewrite !digit_val_digit_char.
  pose proof (N.div_mod n 10 ltac:(discriminate)).
  pose proof (N.div_mod (n / 10) 10 ltac:(discriminate)).
  pose proof (N.div_mod (n / 10 / 10) 10 ltac:(discriminate)).
  pose proof (N.div_mod (n / 10 / 10 / 10) 10 ltac:(discriminate)).
  pose proof (N.mod_lt n 10 ltac:(discriminate)).
  pose proof (N.mod_lt (n / 10) 10 ltac:(discriminate)).
  pose proof (N.mod_lt (n / 10 / 10) 10 ltac:(discriminate)).
  pose proof (N.mod_lt (n / 10 / 10 / 10) 10 ltac:(discriminate)).
  remember (n mod 10)%N as r0 in *.
  remember ((n / 10) mod 10)%N as r1 in *.
  remember ((n / 10 / 10) mod 10)%N as r2 in *.
  remember ((n / 10 / 10 / 10) mod 10)%N as r3 in *.
  remember (n / 10 / 10 / 10 / 10)%N as a4 in *.
  remember (n / 10 / 10 / 10)%N as a3 in *.
  remember (n / 10 / 10)%N as a2 in *.
  remember (n / 10)%N as a1 in *.
  lia.
Qed.

(** X14. The text written for a finite rate is its sign, then the
    decimal digits of a whole number of ten-thousandths: the nearest
    one to the rate, at most half a ten-thousandth away (the rate
    itself when it is a whole number). *)
Theorem format_4f_rounds_to_nearest (s : bool) (m : positive) (e : Z) :
  exists ip fp,
    PyFloat.format_4f (S754_finite s m e)
    = PyFloat.sign_str s ++ ip ++ String "." fp
    /\ String.length fp = 4%nat
    /\ match e with
       | Zneg p =>
           (2 * (PyStr.digits_val ip * 10000 + PyStr.digits_val fp) * 2 ^ Npos p
            <= 2 * (Npos m * 10000) + 2 ^ Npos p
            /\ 2 * (Npos m * 10000)
               <= 2 * (PyStr.digits_val ip * 10000 + PyStr.digits_val fp) * 2 ^ Npos p
                  + 2 ^ Npos p)%N
       | _ =>
           (PyStr.digits_val ip * 10000 + PyStr.digits_val fp
            = Npos m * 10000 * 2 ^ Z.to_N e)%N
       end.
Proof.
  cbn [PyFloat.format_4f]. cbv zeta.
  set (n := PyFloat.scaled4 m e).
  exists (PyStr.str_of_N (n / 10000)), (PyStr.zero_padded 4 (n mod 10000)).
  split; [reflexivity|]. split; [rewrite zero_padded_4; reflexivity|].
  rewrite str_of_N_value.
  rewrite digits_val_zero_padded_4 by (apply N.mod_lt; discriminate).
  assert (Hn : (n / 10000 * 10000 + n mod 10000 = n)%N).
  { pose proof (N.div_mod n 10000 ltac:(discriminate)). lia. }
  rewrite Hn. subst n.
  destruct e as [|p|p]; cbn [PyFloat.scaled4]; try reflexivity.
  apply div_half_even_nearest. apply N.pow_nonzero. discriminate.
Qed.

(** *** The row written *)

(** X15. A data row holds the eight fields in the order of the
    interface, separated by tabs and ended by the line terminator; a
    rate is written as it is formatted, without quotes, and a finite
    rate is formatted as a fixed-point decimal with exactly four digits
    after the point. *)
Theorem finite_rates_have_four_decimals :
  (forall r,
      Csv.row_text Csv.TAB fieldnames (formatted_data r)
      = PyStr.join (String Csv.TAB EmptyString)
          [Csv.write_field Csv.TAB (Currency_Name r);
           PyFloat.format_4f (Buying_Rate r);
           PyFloat.format_4f (Cash_Buying_Rate r);
           PyFloat.format_4f (Selling_Rate r);
           PyFloat.format_4f (Cash_Selling_Rate r);
           PyFloat.format_4f (Middle_Rate r);
           Csv.write_field Csv.TAB (Pub_Time r);
           Csv.write_field Csv.TAB (Timestamp r)]
          ++ Csv.lineterminator)
  /\ (forall x, PyFloat.is_finite x = true ->
                is_fixed4 (PyFloat.format_4f x) = true).
Proof.
  split.
  - intros r. rewrite row_text_eq. unfold data_line, data_fields.
    cbn [map]. rewrite !write_field_format_4f. reflexivity.
  - exact is_fixed4_format_4f.
Qed.

Lemma finite_rates_have_four_decimals_witness :
  is_fixed4 (PyFloat.format_4f (scaled (PyFloat.of_decimal false 68150 0))) = true.
Proof.
  exact (proj2 finite_rates_have_four_decimals
               (scaled (PyFloat.of_decimal false 68150 0)) eq_refl).
Defined.
